(** * USB CDC ACM <-> UART bridge with AT command interpreter

    A shallow embedding of [USBD_User_CDC_ACM_UART_0.c]: the two byte
    counters of the UART -> USB direction with the draining thread, the
    line-coding callbacks, and the command interpreter that sits on the USB
    receive path.

    C integers are [Z] with the 32-bit wrap-around written out, bytes are
    [Z] in [0, 256), arrays are lists, and the file-scope variables of the
    module are gathered in one record that every function threads through.
    What the environment answers (driver status, amount accepted by the USB
    stack, pin levels, bytes found on the stack) is an explicit argument. *)

From Stdlib Require Import ZArith List Bool String Ascii Lia DecimalString.
Import ListNotations.
Local Open Scope Z_scope.

(** ** Machine integers *)

Module Int.

Definition modulus : Z := 2 ^ 32.
Definition half_modulus : Z := 2 ^ 31.

(** Conversion to [uint32_t]. *)
Definition uint32 (x : Z) : Z := x mod modulus.

(** Conversion to [int32_t] (two's complement wrap-around); the result of
    every [int32_t] addition and subtraction goes through it. *)
Definition int32 (x : Z) : Z := (x + half_modulus) mod modulus - half_modulus.

Definition in_int32 (x : Z) : Prop := - half_modulus <= x < half_modulus.

End Int.

Import Int.

(** ** The C library functions the module calls

    Characters are [Z]; a C string is read up to its first NUL, and reading
    past the end of a list reads NUL, which is what ends a string literal. *)

Module CLib.

Definition str (s : string) : list Z :=
  map (fun a => Z.of_nat (nat_of_ascii a)) (list_ascii_of_string s).

Definition CR : Z := 13.
Definition LF : Z := 10.

(** The characters of a C string, terminator excluded. *)
Fixpoint cstr (s : list Z) : list Z :=
  match s with
  | [] => []
  | c :: r => if c =? 0 then [] else c :: cstr r
  end.

Definition strlen (s : list Z) : Z := Z.of_nat (List.length (cstr s)).

Fixpoint strncmp (s1 s2 : list Z) (n : nat) : Z :=
  match n with
  | O => 0
  | S n' =>
      let c1 := hd 0 s1 in
      let c2 := hd 0 s2 in
      if c1 =? c2
      then if c1 =? 0 then 0 else strncmp (tl s1) (tl s2) n'
      else c1 - c2
  end.

Definition isspace (c : Z) : bool := (c =? 32) || ((9 <=? c) && (c <=? 13)).
Definition isdigit (c : Z) : bool := (48 <=? c) && (c <=? 57).

Fixpoint skip_spaces (s : list Z) : list Z :=
  match s with
  | c :: r => if isspace c then skip_spaces r else s
  | [] => []
  end.

Fixpoint digits_value (acc : Z) (s : list Z) : Z :=
  match s with
  | c :: r => if isdigit c then digits_value (10 * acc + (c - 48)) r else acc
  | [] => acc
  end.

(** [atoi]: optional white space, optional sign, then decimal digits. A
    value that does not fit an [int] is undefined in C; the digits are
    accumulated without a bound here. *)
Definition atoi (s : list Z) : Z :=
  match skip_spaces s with
  | 45 :: r => - digits_value 0 r
  | 43 :: r => digits_value 0 r
  | r => digits_value 0 r
  end.

(** [dst[i] = v] for an index inside the array. *)
Fixpoint store (dst : list Z) (i : nat) (v : Z) : list Z :=
  match dst, i with
  | [], _ => []
  | _ :: r, O => v :: r
  | c :: r, S i' => c :: store r i' v
  end.

(** [strncpy (dst, src, n)]: the characters of [src], at most [n] of them,
    padded with NULs up to [n]; the rest of [dst] is kept. *)
Definition strncpy (dst src : list Z) (n : nat) : list Z :=
  let s := firstn n (cstr src) in
  s ++ repeat 0 (n - List.length s)%nat ++ skipn n dst.

(** [snprintf (buf, n, ...)] once the format is expanded to [text]: at most
    [n - 1] characters and a NUL. *)
Definition snprintf (buf : list Z) (n : nat) (text : list Z) : list Z :=
  let out := firstn (n - 1) text ++ [0] in
  out ++ skipn (List.length out) buf.

(** The expansion of [%d]. *)
Definition decimal (z : Z) : list Z := str (NilZero.string_of_int (Z.to_int z)).

End CLib.

Import CLib.

(** ** The HAL's GPIO access and the pin assignment of [main.h] *)

Module HAL.

Inductive GPIO_TypeDef := GPIOA | GPIOB | GPIOF | GPIOG | GPIOH | GPIOI.

(** The output data registers of the ports the board uses. *)
Record gpio_regs := mkGpio {
  odrA : Z; odrB : Z; odrF : Z; odrG : Z; odrH : Z; odrI : Z
}.

Definition ODR (g : gpio_regs) (p : GPIO_TypeDef) : Z :=
  match p with
  | GPIOA => odrA g | GPIOB => odrB g | GPIOF => odrF g
  | GPIOG => odrG g | GPIOH => odrH g | GPIOI => odrI g
  end.

Definition set_ODR (g : gpio_regs) (p : GPIO_TypeDef) (v : Z) : gpio_regs :=
  match p with
  | GPIOA => mkGpio v (odrB g) (odrF g) (odrG g) (odrH g) (odrI g)
  | GPIOB => mkGpio (odrA g) v (odrF g) (odrG g) (odrH g) (odrI g)
  | GPIOF => mkGpio (odrA g) (odrB g) v (odrG g) (odrH g) (odrI g)
  | GPIOG => mkGpio (odrA g) (odrB g) (odrF g) v (odrH g) (odrI g)
  | GPIOH => mkGpio (odrA g) (odrB g) (odrF g) (odrG g) v (odrI g)
  | GPIOI => mkGpio (odrA g) (odrB g) (odrF g) (odrG g) (odrH g) v
  end.

Definition GPIO_PIN (n : Z) : Z := Z.shiftl 1 n.

Definition GPIO_PIN_RESET : Z := 0.
Definition GPIO_PIN_SET : Z := 1.

(** Through the bit set/reset register: the pins of the mask are set, or
    cleared, and the others keep their level. *)
Definition HAL_GPIO_WritePin (g : gpio_regs) (port : GPIO_TypeDef)
    (pin state : Z) : gpio_regs :=
  if state =? GPIO_PIN_RESET
  then set_ODR g port (Z.ldiff (ODR g port) pin)
  else set_ODR g port (Z.lor (ODR g port) pin).

Definition HAL_GPIO_ReadPin (idr : GPIO_TypeDef -> Z) (port : GPIO_TypeDef)
    (pin : Z) : Z :=
  if Z.land (idr port) pin =? 0 then GPIO_PIN_RESET else GPIO_PIN_SET.

Definition LED1_Pin := GPIO_PIN 6.
Definition LED1_GPIO_Port := GPIOF.
Definition LED2_Pin := GPIO_PIN 4.
Definition LED2_GPIO_Port := GPIOB.
Definition LED3_Pin := GPIO_PIN 7.
Definition LED3_GPIO_Port := GPIOG.
Definition LED4_Pin := GPIO_PIN 0.
Definition LED4_GPIO_Port := GPIOI.
Definition LED5_Pin := GPIO_PIN 6.
Definition LED5_GPIO_Port := GPIOH.
Definition LED6_Pin := GPIO_PIN 3.
Definition LED6_GPIO_Port := GPIOI.
Definition LED7_Pin := GPIO_PIN 15.
Definition LED7_GPIO_Port := GPIOA.
Definition LED8_Pin := GPIO_PIN 8.
Definition LED8_GPIO_Port := GPIOA.
Definition SW1_Pin := GPIO_PIN 10.
Definition SW1_GPIO_Port := GPIOF.
Definition SW2_Pin := GPIO_PIN 9.
Definition SW2_GPIO_Port := GPIOF.
Definition SW3_Pin := GPIO_PIN 8.
Definition SW3_GPIO_Port := GPIOF.
Definition SW4_Pin := GPIO_PIN 7.
Definition SW4_GPIO_Port := GPIOF.

End HAL.

Import HAL.

(** ** The CMSIS USART driver as the module sees it *)

Module USART.

(** Constants of [Driver_USART.h]. *)
Definition ARM_USART_MODE_ASYNCHRONOUS : Z := 1.
Definition ARM_USART_DATA_BITS_5 : Z := Z.shiftl 5 8.
Definition ARM_USART_DATA_BITS_6 : Z := Z.shiftl 6 8.
Definition ARM_USART_DATA_BITS_7 : Z := Z.shiftl 7 8.
Definition ARM_USART_DATA_BITS_8 : Z := Z.shiftl 0 8.
Definition ARM_USART_PARITY_NONE : Z := Z.shiftl 0 12.
Definition ARM_USART_PARITY_EVEN : Z := Z.shiftl 1 12.
Definition ARM_USART_PARITY_ODD : Z := Z.shiftl 2 12.
Definition ARM_USART_STOP_BITS_1 : Z := Z.shiftl 0 14.
Definition ARM_USART_STOP_BITS_2 : Z := Z.shiftl 1 14.
Definition ARM_USART_STOP_BITS_1_5 : Z := Z.shiftl 2 14.
Definition ARM_USART_CONTROL_TX : Z := 21.
Definition ARM_USART_CONTROL_RX : Z := 22.
Definition ARM_USART_ABORT_SEND : Z := 24.
Definition ARM_USART_ABORT_RECEIVE : Z := 25.
Definition ARM_USART_EVENT_SEND_COMPLETE : Z := 1.
Definition ARM_USART_EVENT_RECEIVE_COMPLETE : Z := 2.
Definition ARM_DRIVER_OK : Z := 0.
Definition ARM_POWER_OFF : Z := 0.
Definition ARM_POWER_FULL : Z := 2.

(** A call made through [ptrUART]; the state keeps them in the order they
    were issued. [Send] carries the bytes handed to the transmitter,
    [Receive] the length of the reception armed on [uart_rx_buf]. *)
Inductive call :=
| Initialize
| Uninitialize
| PowerControl (state : Z)
| Send (data : list Z)
| Receive (num : Z)
| Control (control arg : Z).

End USART.

Import USART.

(** ** The module's variables *)

Definition USB_RECEIVE_BUFFER_SIZE : Z := 512.
Definition UART_BUFFER_SIZE : Z := 512.
Definition CMD_BUFFER_SIZE : Z := 64.

Record CDC_LINE_CODING := mkLineCoding {
  dwDTERate : Z;
  bCharFormat : Z;
  bParityType : Z;
  bDataBits : Z
}.

(** The file-scope variables, then the two pieces of the outside world the
    module acts on: the GPIO output registers and the calls issued to the
    UART driver. [uart_rx_buf] is filled by the driver only and its content
    is not followed. *)
Record state := mkState {
  usb_receive_buffer : list Z;
  uart_tx_buf : list Z;
  uart_rx_cnt : Z;
  usb_tx_cnt : Z;
  cdc_acm_bridge_tid : Z;
  cdc_acm_line_coding : CDC_LINE_CODING;
  cmd_buffer : list Z;
  cmd_buffer_cnt : Z;
  storedLCDString : list Z;
  gpio : gpio_regs;
  usart : list USART.call
}.

Definition set_usb_receive_buffer (v : list Z) (s : state) : state :=
  mkState v (uart_tx_buf s) (uart_rx_cnt s) (usb_tx_cnt s)
    (cdc_acm_bridge_tid s) (cdc_acm_line_coding s) (cmd_buffer s)
    (cmd_buffer_cnt s) (storedLCDString s) (gpio s) (usart s).

Definition set_uart_tx_buf (v : list Z) (s : state) : state :=
  mkState (usb_receive_buffer s) v (uart_rx_cnt s) (usb_tx_cnt s)
    (cdc_acm_bridge_tid s) (cdc_acm_line_coding s) (cmd_buffer s)
    (cmd_buffer_cnt s) (storedLCDString s) (gpio s) (usart s).

Definition set_uart_rx_cnt (v : Z) (s : state) : state :=
  mkState (usb_receive_buffer s) (uart_tx_buf s) v (usb_tx_cnt s)
    (cdc_acm_bridge_tid s) (cdc_acm_line_coding s) (cmd_buffer s)
    (cmd_buffer_cnt s) (storedLCDString s) (gpio s) (usart s).

Definition set_usb_tx_cnt (v : Z) (s : state) : state :=
  mkState (usb_receive_buffer s) (uart_tx_buf s) (uart_rx_cnt s) v
    (cdc_acm_bridge_tid s) (cdc_acm_line_coding s) (cmd_buffer s)
    (cmd_buffer_cnt s) (storedLCDString s) (gpio s) (usart s).

Definition set_cdc_acm_bridge_tid (v : Z) (s : state) : state :=
  mkState (usb_receive_buffer s) (uart_tx_buf s) (uart_rx_cnt s) (usb_tx_cnt s)
    v (cdc_acm_line_coding s) (cmd_buffer s)
    (cmd_buffer_cnt s) (storedLCDString s) (gpio s) (usart s).

Definition set_cdc_acm_line_coding (v : CDC_LINE_CODING) (s : state) : state :=
  mkState (usb_receive_buffer s) (uart_tx_buf s) (uart_rx_cnt s) (usb_tx_cnt s)
    (cdc_acm_bridge_tid s) v (cmd_buffer s)
    (cmd_buffer_cnt s) (storedLCDString s) (gpio s) (usart s).

Definition set_cmd_buffer (v : list Z) (s : state) : state :=
  mkState (usb_receive_buffer s) (uart_tx_buf s) (uart_rx_cnt s) (usb_tx_cnt s)
    (cdc_acm_bridge_tid s) (cdc_acm_line_coding s) v
    (cmd_buffer_cnt s) (storedLCDString s) (gpio s) (usart s).

Definition set_cmd_buffer_cnt (v : Z) (s : state) : state :=
  mkState (usb_receive_buffer s) (uart_tx_buf s) (uart_rx_cnt s) (usb_tx_cnt s)
    (cdc_acm_bridge_tid s) (cdc_acm_line_coding s) (cmd_buffer s)
    v (storedLCDString s) (gpio s) (usart s).

Definition set_storedLCDString (v : list Z) (s : state) : state :=
  mkState (usb_receive_buffer s) (uart_tx_buf s) (uart_rx_cnt s) (usb_tx_cnt s)
    (cdc_acm_bridge_tid s) (cdc_acm_line_coding s) (cmd_buffer s)
    (cmd_buffer_cnt s) v (gpio s) (usart s).

Definition set_gpio (v : gpio_regs) (s : state) : state :=
  mkState (usb_receive_buffer s) (uart_tx_buf s) (uart_rx_cnt s) (usb_tx_cnt s)
    (cdc_acm_bridge_tid s) (cdc_acm_line_coding s) (cmd_buffer s)
    (cmd_buffer_cnt s) (storedLCDString s) v (usart s).

(** A driver call is appended to those already issued. *)
Definition ptrUART (c : USART.call) (s : state) : state :=
  mkState (usb_receive_buffer s) (uart_tx_buf s) (uart_rx_cnt s) (usb_tx_cnt s)
    (cdc_acm_bridge_tid s) (cdc_acm_line_coding s) (cmd_buffer s)
    (cmd_buffer_cnt s) (storedLCDString s) (gpio s) (usart s ++ [c]).

(** The variables as their initializers leave them, with the outputs low
    and no driver call made. *)
Definition initial_state : state :=
  mkState (repeat 0 512) (repeat 0 512) 0 0 0 (mkLineCoding 0 0 0 0)
    (repeat 0 64) 0 (repeat 0 50) (mkGpio 0 0 0 0 0 0) [].

(** ** UART -> USB: the completion callback and the draining thread *)

(** [USBD_CDC_ACM_ReadData (0, buf, max_len)] when the USB stack holds
    [pending]: at most [max_len] bytes land at the start of [buf] and their
    number is returned. An error return is not told apart from an empty
    read, the callers treat both alike ([cnt > 0] fails). *)
Definition USBD_CDC_ACM_ReadData (pending buf : list Z) (max_len : Z)
    : Z * list Z :=
  let got := firstn (Z.to_nat max_len) pending in
  (Z.of_nat (List.length got), got ++ skipn (List.length got) buf).

(** [UART_Callback (event)]; [pending] is what the USB stack holds for the
    UART at that moment. *)
Definition UART_Callback (pending : list Z) (event : Z) (s : state) : state :=
  let s1 :=
    if Z.land event ARM_USART_EVENT_SEND_COMPLETE =? 0 then s
    else
      let '(cnt, buf) :=
        USBD_CDC_ACM_ReadData pending (uart_tx_buf s) UART_BUFFER_SIZE in
      let s' := set_uart_tx_buf buf s in
      if cnt >? 0
      then ptrUART (Send (firstn (Z.to_nat (uint32 cnt)) buf)) s'
      else s' in
  if Z.land event ARM_USART_EVENT_RECEIVE_COMPLETE =? 0 then s1
  else
    ptrUART (Receive UART_BUFFER_SIZE)
      (set_uart_rx_cnt (int32 (uart_rx_cnt s1 + UART_BUFFER_SIZE)) s1).

(** What one pass of the thread's loop finds outside: the receiver's busy
    flag, the count of the reception in flight, and how many bytes the USB
    stack takes of a run offered at an offset of [uart_rx_buf]. *)
Record tick_env := mkTickEnv {
  rx_busy : Z;
  GetRxCount : Z;
  USBD_CDC_ACM_WriteData : Z -> Z -> Z
}.

(** One pass of the body of [for (;;)] in [CDC0_ACM_UART_to_USB_Thread], up
    to [osDelay]. Returned with the state: the run handed to
    [USBD_CDC_ACM_WriteData], as offset into [uart_rx_buf] and length, when
    the call is made. *)
Definition drain_tick (e : tick_env) (s : state) : state * option (Z * Z) :=
  if rx_busy e =? 0 then (s, None)
  else
    let cnt := uart_rx_cnt s in
    let cnt := int32 (cnt + int32 (GetRxCount e)) in
    let cnt := int32 (cnt - usb_tx_cnt s) in
    let '(s, cnt) :=
      if cnt >=? UART_BUFFER_SIZE
      then (set_usb_tx_cnt (int32 (usb_tx_cnt s + cnt)) s, 0)
      else (s, cnt) in
    if cnt >? 0 then
      let offset := Z.land (uint32 (usb_tx_cnt s)) (UART_BUFFER_SIZE - 1) in
      let cnt_to_wrap := int32 (uint32 (UART_BUFFER_SIZE - offset)) in
      let cnt := if cnt >? cnt_to_wrap then cnt_to_wrap else cnt in
      let sent := USBD_CDC_ACM_WriteData e offset cnt in
      if sent >? 0
      then (set_usb_tx_cnt (int32 (usb_tx_cnt s + sent)) s, Some (offset, cnt))
      else (s, Some (offset, cnt))
    else (s, None).

(** The two operations on the counters, and a run of them. *)
Inductive bridge_op :=
| RxComplete
| DrainTick (e : tick_env).

Definition bridge_step (s : state) (o : bridge_op) : state :=
  match o with
  | RxComplete => UART_Callback [] ARM_USART_EVENT_RECEIVE_COMPLETE s
  | DrainTick e => fst (drain_tick e s)
  end.

Definition bridge_run (ops : list bridge_op) (s : state) : state :=
  fold_left bridge_step ops s.

(** The span the data model speaks of. *)
Definition unread_span (s : state) : Z := uart_rx_cnt s - usb_tx_cnt s.

(** The span a pass of the thread computes, reception in flight included. *)
Definition observed_span (e : tick_env) (s : state) : Z :=
  int32 (int32 (uart_rx_cnt s + int32 (GetRxCount e)) - usb_tx_cnt s).

(** ** The command interpreter *)

(** What a dispatch finds outside: the bytes the LED loop reads at
    [binaryString[i]] for [i >= 5], past the five elements of the array;
    the input registers of the ports (taken as steady during one
    dispatch); the value the converter delivers to [ReadPot]. *)
Record cmd_env := mkCmdEnv {
  past_binaryString : Z -> Z;
  IDR : GPIO_TypeDef -> Z;
  adc_value : Z
}.

(** The loop of [intToBinaryString], entered with [i = i1 - 1]. *)
Fixpoint intToBinaryString_from (i1 : nat) (num : Z) (binaryString : list Z)
    : list Z :=
  match i1 with
  | O => binaryString
  | S i =>
      intToBinaryString_from i (Z.shiftr num 1)
        (store binaryString i (Z.land num 1 + 48))
  end.

Definition intToBinaryString (num : Z) (binaryString : list Z) (size : nat)
    : list Z :=
  store (intToBinaryString_from size num binaryString) size 0.

Definition storeLCDString (lcdString : list Z) (s : state) : state :=
  set_storedLCDString
    (store (strncpy (storedLCDString s) lcdString 49) 49 0) s.

(** The [switch (i + 1)] over the eight outputs; both copies of it are
    this one, with the level to write. *)
Definition LED (k : Z) : option (GPIO_TypeDef * Z) :=
  match k with
  | 1 => Some (LED1_GPIO_Port, LED1_Pin)
  | 2 => Some (LED2_GPIO_Port, LED2_Pin)
  | 3 => Some (LED3_GPIO_Port, LED3_Pin)
  | 4 => Some (LED4_GPIO_Port, LED4_Pin)
  | 5 => Some (LED5_GPIO_Port, LED5_Pin)
  | 6 => Some (LED6_GPIO_Port, LED6_Pin)
  | 7 => Some (LED7_GPIO_Port, LED7_Pin)
  | 8 => Some (LED8_GPIO_Port, LED8_Pin)
  | _ => None
  end.

Definition write_LED (k level : Z) (g : gpio_regs) : gpio_regs :=
  match LED k with
  | Some (port, pin) => HAL_GPIO_WritePin g port pin level
  | None => g
  end.

(** [binaryString[i]] as the loop reads it: an element of the array below
    5, whatever lies behind the array from 5 on. *)
Definition read_binaryString (e : cmd_env) (binaryString : list Z) (i : Z)
    : Z :=
  if i <? 5 then nth (Z.to_nat i) binaryString 0 else past_binaryString e i.

(** [n] more passes of [for (i = 0; i < 8; i++)], at index [i]. *)
Fixpoint led_loop (e : cmd_env) (binaryString : list Z) (n : nat) (i : Z)
    (g : gpio_regs) : gpio_regs :=
  match n with
  | O => g
  | S n' =>
      let level :=
        if read_binaryString e binaryString i =? 49
        then GPIO_PIN_SET else GPIO_PIN_RESET in
      led_loop e binaryString n' (i + 1) (write_LED (i + 1) level g)
  end.

Definition pressed (e : cmd_env) (port : GPIO_TypeDef) (pin : Z) : bool :=
  HAL_GPIO_ReadPin (IDR e) port pin =? GPIO_PIN_RESET.

(** The chain of tests of the [AT+BUTTON] branch; every message ends with
    CR LF, appended by the caller. *)
Definition button_message (e : cmd_env) : list Z :=
  let b1 := pressed e SW1_GPIO_Port SW1_Pin in
  let b2 := pressed e SW2_GPIO_Port SW2_Pin in
  let b3 := pressed e SW3_GPIO_Port SW3_Pin in
  let b4 := pressed e SW4_GPIO_Port SW4_Pin in
  if b1 && b2 && b3 && b4 then str "All buttons are pressed"
  else if b1 && b2 && b3 then str "Button 1, Button 2 and Button 3 are pressed"
  else if b1 && b2 && b4 then str "Button 1, Button 2 and Button 4 are pressed"
  else if b1 && b3 && b4 then str "Button 1, Button 3 and Button 4 are pressed"
  else if b2 && b3 && b4 then str "Button 2, Button 3 and Button 4 are pressed"
  else if b1 && b2 then str "Button 1 and Button 2 are pressed"
  else if b1 && b3 then str "Button 1 and Button 3 are pressed"
  else if b1 && b4 then str "Button 1 and Button 4 are pressed"
  else if b2 && b3 then str "Button 2 and Button 3 are pressed"
  else if b2 && b4 then str "Button 2 and Button 4 are pressed"
  else if b3 && b4 then str "Button 3 and Button 4 are pressed"
  else if b1 then str "Button 1 is pressed"
  else if b2 then str "Button 2 is pressed"
  else if b3 then str "Button 3 is pressed"
  else if b4 then str "Button 4 is pressed"
  else str "No button is pressed".

(** [ReadPot] of [Temp.c]: the converter's [uint32_t] stored into an
    [int32_t]. *)
Definition ReadPot (e : cmd_env) : Z := int32 (uint32 (adc_value e)).

(** [snprintf ((char* )uart_tx_buf, UART_BUFFER_SIZE, ...)]. *)
Definition format_reply (text : list Z) (s : state) : state :=
  set_uart_tx_buf (snprintf (uart_tx_buf s) 512 text) s.

(** [ptrUART->Send (uart_tx_buf, strlen ((char* )uart_tx_buf))]. *)
Definition send_reply (s : state) : state :=
  ptrUART
    (Send (firstn (Z.to_nat (strlen (uart_tx_buf s))) (uart_tx_buf s))) s.

Definition process_AT_command (e : cmd_env) (cmd_buffer : list Z) (s : state)
    : state :=
  if strncmp cmd_buffer (str "AT+LED") 6 =? 0 then
    let led_value := atoi (skipn 6 cmd_buffer) in
    let s :=
      if (led_value >=? 1) && (led_value <=? 8) then
        let binaryString := intToBinaryString led_value (repeat 0 5) 4 in
        set_gpio (led_loop e binaryString 8 0 (gpio s)) s
      else s in
    format_reply (str "LED value set to: " ++ decimal led_value ++ [CR; LF]) s
  else if strncmp cmd_buffer (str "AT+LCD=") 6 =? 0 then
    let lcdString := skipn 6 cmd_buffer in
    let s := storeLCDString lcdString s in
    format_reply (str "LCD string set to: " ++ cstr lcdString ++ [CR; LF]) s
  else if strncmp cmd_buffer (str "AT+BUTTON") 9 =? 0 then
    send_reply (format_reply (button_message e ++ [CR; LF]) s)
  else if strncmp cmd_buffer (str "AT+POT") 6 =? 0 then
    let potValue := ReadPot e in
    send_reply
      (format_reply
         (str "Potentiometer value: " ++ decimal potValue ++ [CR; LF]) s)
  else s.

(** How the receive callback ends: it returns, or it writes
    [cmd_buffer[index]] with [index] outside the array, which C leaves
    undefined; the state is then the one the write found. *)
Inductive outcome :=
| Returned (s : state)
| OutOfBounds (index : Z) (s : state).

(** The loop over the bytes read from the USB stack. *)
Fixpoint receive_loop (e : cmd_env) (bytes : list Z) (s : state) : outcome :=
  match bytes with
  | [] => Returned s
  | b :: rest =>
      let i := cmd_buffer_cnt s in
      if (0 <=? i) && (i <? CMD_BUFFER_SIZE) then
        let s := set_cmd_buffer_cnt (i + 1) s in
        if b =? CR then
          let s := set_cmd_buffer (store (cmd_buffer s) (Z.to_nat i) 0) s in
          let s := process_AT_command e (cmd_buffer s) s in
          receive_loop e rest (set_cmd_buffer_cnt 0 s)
        else
          receive_loop e rest
            (set_cmd_buffer (store (cmd_buffer s) (Z.to_nat i) b) s)
      else OutOfBounds i s
  end.

(** [pending] is what the USB stack holds when the callback runs; every
    dispatch of the call meets the same surroundings [e]. *)
Definition USBD_CDC0_ACM_DataReceived (e : cmd_env) (pending : list Z)
    (s : state) : outcome :=
  let '(cnt, buf) :=
    USBD_CDC_ACM_ReadData pending (usb_receive_buffer s)
      USB_RECEIVE_BUFFER_SIZE in
  let s := set_usb_receive_buffer buf s in
  if cnt >? 0
  then receive_loop e (firstn (Z.to_nat cnt) (usb_receive_buffer s)) s
  else Returned s.

(** ** Life cycle and line coding *)

(** [tid] is the thread id [osThreadNew] returns. *)
Definition USBD_CDC0_ACM_Initialize (tid : Z) (s : state) : state :=
  set_cdc_acm_bridge_tid tid
    (ptrUART (PowerControl ARM_POWER_FULL) (ptrUART Initialize s)).

(** [terminated] tells whether [osThreadTerminate] returned [osOK]. *)
Definition USBD_CDC0_ACM_Uninitialize (terminated : bool) (s : state) : state :=
  let s := if terminated then set_cdc_acm_bridge_tid 0 s else s in
  ptrUART Uninitialize
    (ptrUART (PowerControl ARM_POWER_OFF)
       (ptrUART (Control ARM_USART_ABORT_RECEIVE 0) s)).

Definition USBD_CDC0_ACM_Reset (s : state) : state :=
  ptrUART (Control ARM_USART_ABORT_RECEIVE 0)
    (ptrUART (Control ARM_USART_ABORT_SEND 0) s).

Definition stop_bits_of (bCharFormat : Z) : option Z :=
  match bCharFormat with
  | 0 => Some ARM_USART_STOP_BITS_1
  | 1 => Some ARM_USART_STOP_BITS_1_5
  | 2 => Some ARM_USART_STOP_BITS_2
  | _ => None
  end.

Definition parity_of (bParityType : Z) : option Z :=
  match bParityType with
  | 0 => Some ARM_USART_PARITY_NONE
  | 1 => Some ARM_USART_PARITY_ODD
  | 2 => Some ARM_USART_PARITY_EVEN
  | _ => None
  end.

Definition data_bits_of (bDataBits : Z) : option Z :=
  match bDataBits with
  | 5 => Some ARM_USART_DATA_BITS_5
  | 6 => Some ARM_USART_DATA_BITS_6
  | 7 => Some ARM_USART_DATA_BITS_7
  | 8 => Some ARM_USART_DATA_BITS_8
  | _ => None
  end.

(** [status] is what the driver answers to the mode-setting [Control]
    call, the only answer the function looks at. *)
Definition USBD_CDC0_ACM_SetLineCoding (status : Z)
    (line_coding : CDC_LINE_CODING) (s : state) : bool * state :=
  let s := ptrUART (Control ARM_USART_ABORT_SEND 0) s in
  let s := ptrUART (Control ARM_USART_ABORT_RECEIVE 0) s in
  let s := ptrUART (Control ARM_USART_CONTROL_TX 0) s in
  let s := ptrUART (Control ARM_USART_CONTROL_RX 0) s in
  match stop_bits_of (bCharFormat line_coding) with
  | None => (false, s)
  | Some stop_bits =>
  match parity_of (bParityType line_coding) with
  | None => (false, s)
  | Some parity =>
  match data_bits_of (bDataBits line_coding) with
  | None => (false, s)
  | Some data_bits =>
      let s :=
        ptrUART
          (Control
             (Z.lor (Z.lor (Z.lor ARM_USART_MODE_ASYNCHRONOUS data_bits)
                       parity) stop_bits)
             (dwDTERate line_coding)) s in
      if negb (status =? ARM_DRIVER_OK) then (false, s)
      else
        let s := set_cdc_acm_line_coding line_coding s in
        let s := set_uart_rx_cnt 0 s in
        let s := set_usb_tx_cnt 0 s in
        let s := ptrUART (Control ARM_USART_CONTROL_TX 1) s in
        let s := ptrUART (Control ARM_USART_CONTROL_RX 1) s in
        let s := ptrUART (Receive UART_BUFFER_SIZE) s in
        (true, s)
  end end end.

Definition USBD_CDC0_ACM_GetLineCoding (s : state) : bool * CDC_LINE_CODING :=
  (true, cdc_acm_line_coding s).

Definition USBD_CDC0_ACM_SetControlLineState (ctl : Z) (s : state)
    : bool * state :=
  (true, s).

(** * Properties *)

(** ** Wrap-around arithmetic *)

Section IntFacts.

Lemma int32_range x : in_int32 (int32 x).
Proof.
  unfold in_int32, int32, modulus, half_modulus.
  pose proof (Z.mod_pos_bound (x + 2 ^ 31) (2 ^ 32) ltac:(lia)). lia.
Qed.

Lemma int32_id x : in_int32 x -> int32 x = x.
Proof.
  unfold in_int32, int32, modulus, half_modulus. intros H.
  rewrite Z.mod_small; lia.
Qed.

(** [int32] only depends on the class modulo [2 ^ 32]. *)
Lemma int32_congr x y k : x = y + k * modulus -> int32 x = int32 y.
Proof.
  intros ->. unfold int32.
  replace (y + k * modulus + half_modulus)
    with (y + half_modulus + k * modulus) by ring.
  now rewrite Z.mod_add by (unfold modulus; lia).
Qed.

Lemma int32_decompose x : exists k, int32 x = x + k * modulus.
Proof.
  exists (- ((x + half_modulus) / modulus)). unfold int32.
  pose proof (Z.div_mod (x + half_modulus) modulus) as H.
  unfold modulus in *. specialize (H ltac:(lia)). lia.
Qed.

Lemma int32_add_l x y : int32 (int32 x + y) = int32 (x + y).
Proof.
  destruct (int32_decompose x) as [k ->].
  apply int32_congr with (k := k). ring.
Qed.

Lemma int32_add_r x y : int32 (x + int32 y) = int32 (x + y).
Proof. rewrite Z.add_comm, int32_add_l. f_equal. ring. Qed.

Lemma int32_idem x : int32 (int32 x) = int32 x.
Proof. apply int32_id, int32_range. Qed.

(** [(uint32_t)x & (512 - 1)] is the residue of [x] modulo 512. *)
Lemma uint32_land_511 x : Z.land (uint32 x) 511 = x mod 512.
Proof.
  unfold uint32, modulus.
  change 511 with (Z.ones 9). rewrite Z.land_ones by lia.
  change (2 ^ 32) with (2 ^ 9 * 2 ^ 23).
  rewrite Z.rem_mul_r by lia.
  rewrite Z.mul_comm, Z.mod_add by lia.
  rewrite Z.mod_mod by lia. reflexivity.
Qed.

Lemma cnt_to_wrap_exact off :
  0 <= off < 512 -> int32 (uint32 (512 - off)) = 512 - off.
Proof.
  intros H. unfold uint32, modulus.
  rewrite Z.mod_small by lia.
  apply int32_id. unfold in_int32, half_modulus. lia.
Qed.

End IntFacts.

(** ** The draining thread *)

Section Drain.

Variable e : tick_env.
Variable s : state.

Hypothesis busy : rx_busy e <> 0.

Lemma busy_test : (rx_busy e =? 0) = false.
Proof. now apply Z.eqb_neq. Qed.

(** At or above the buffer size the pass only moves [usb_tx_cnt]. *)
Lemma drain_tick_dump :
  UART_BUFFER_SIZE <= observed_span e s ->
  drain_tick e s =
    (set_usb_tx_cnt (int32 (uart_rx_cnt s + int32 (GetRxCount e))) s, None).
Proof.
  intros Hspan. unfold drain_tick. rewrite busy_test.
  fold (observed_span e s).
  destruct (observed_span e s >=? UART_BUFFER_SIZE) eqn:Hge; [| lia].
  cbn. f_equal. f_equal.
  unfold observed_span.
  rewrite int32_add_r.
  replace (usb_tx_cnt s + (int32 (uart_rx_cnt s + int32 (GetRxCount e))
                            - usb_tx_cnt s))
    with (int32 (uart_rx_cnt s + int32 (GetRxCount e))) by ring.
  apply int32_idem.
Qed.

(** Below it, a positive span is offered to the USB stack from the read
    position up to the end of the buffer at most. *)
Lemma drain_tick_offer :
  0 < observed_span e s < UART_BUFFER_SIZE ->
  let offset := usb_tx_cnt s mod UART_BUFFER_SIZE in
  let len := Z.min (observed_span e s) (UART_BUFFER_SIZE - offset) in
  let n := USBD_CDC_ACM_WriteData e offset len in
  drain_tick e s =
    (if n >? 0 then set_usb_tx_cnt (int32 (usb_tx_cnt s + n)) s else s,
     Some (offset, len)).
Proof.
  intros Hspan offset len n. unfold drain_tick. rewrite busy_test.
  fold (observed_span e s).
  destruct (observed_span e s >=? UART_BUFFER_SIZE) eqn:Hge; [lia |].
  destruct (observed_span e s >? 0) eqn:Hgt; [| lia].
  assert (Hoff : 0 <= offset < 512)
    by (apply Z.mod_pos_bound; reflexivity).
  assert (Hmask : Z.land (uint32 (usb_tx_cnt s)) (UART_BUFFER_SIZE - 1)
                  = offset) by apply uint32_land_511.
  rewrite Hmask.
  assert (Hwrap : int32 (uint32 (UART_BUFFER_SIZE - offset))
                  = UART_BUFFER_SIZE - offset)
    by (apply cnt_to_wrap_exact; exact Hoff).
  rewrite Hwrap.
  assert (Hlen : (if observed_span e s >? UART_BUFFER_SIZE - offset
                  then UART_BUFFER_SIZE - offset else observed_span e s)
                 = len).
  { unfold len.
    destruct (observed_span e s >? UART_BUFFER_SIZE - offset) eqn:Hc; lia. }
  rewrite Hlen. fold n.
  destruct (n >? 0); reflexivity.
Qed.

(** With nothing unread the pass leaves everything as it is. *)
Lemma drain_tick_idle :
  observed_span e s <= 0 -> drain_tick e s = (s, None).
Proof.
  intros Hspan. unfold drain_tick. rewrite busy_test.
  fold (observed_span e s).
  destruct (observed_span e s >=? UART_BUFFER_SIZE) eqn:Hge;
    [unfold UART_BUFFER_SIZE in Hge; lia |].
  destruct (observed_span e s >? 0) eqn:Hgt; [lia | reflexivity].
Qed.

End Drain.

Lemma drain_tick_not_busy e s : rx_busy e = 0 -> drain_tick e s = (s, None).
Proof. intros H. unfold drain_tick. now rewrite H. Qed.

(** C2. When a pass of [CDC0_ACM_UART_to_USB_Thread] finds the receiver
    busy and computes an unread span, reception in flight included, above
    [UART_BUFFER_SIZE], it offers nothing to the USB stack and only moves
    [usb_tx_cnt], up to the received total: computed again, the span is
    zero. This holds for every value of the two counters, wrap-around
    included; where nothing wraps, the new [usb_tx_cnt] is the plain sum
    [uart_rx_cnt + GetRxCount ()]. *)
Theorem overflow_discards_whole_backlog (e : tick_env) (s : state) :
  rx_busy e <> 0 ->
  UART_BUFFER_SIZE < observed_span e s ->
  snd (drain_tick e s) = None /\
  fst (drain_tick e s) =
    set_usb_tx_cnt (int32 (uart_rx_cnt s + int32 (GetRxCount e))) s /\
  observed_span e (fst (drain_tick e s)) = 0 /\
  (in_int32 (GetRxCount e) ->
   in_int32 (uart_rx_cnt s + GetRxCount e) ->
   usb_tx_cnt (fst (drain_tick e s)) = uart_rx_cnt s + GetRxCount e).
Proof.
  intros Hbusy Hspan.
  rewrite (drain_tick_dump e s Hbusy) by lia. cbn [fst snd].
  repeat split.
  - unfold observed_span. cbn.
    rewrite Z.sub_diag. reflexivity.
  - intros Hr Hsum. cbn.
    rewrite (int32_id (GetRxCount e)) by assumption.
    now apply int32_id.
Qed.

Definition overflowing_env : tick_env := mkTickEnv 1 7 (fun _ n => n).
Definition overflowing_state : state := set_uart_rx_cnt 1024 initial_state.

Lemma overflow_discards_whole_backlog_witness :
  snd (drain_tick overflowing_env overflowing_state) = None /\
  fst (drain_tick overflowing_env overflowing_state) =
    set_usb_tx_cnt 1031 overflowing_state /\
  observed_span overflowing_env
    (fst (drain_tick overflowing_env overflowing_state)) = 0.
Proof.
  destruct (overflow_discards_whole_backlog overflowing_env overflowing_state)
    as (Hnone & Hstate & Hzero & _).
  - vm_compute. discriminate.
  - vm_compute. reflexivity.
  - repeat split; assumption.
Defined.

(** One completed reception, nothing forwarded, nothing in flight. *)
Definition full_buffer_env : tick_env := mkTickEnv 1 0 (fun _ _ => 0).
Definition full_buffer_state : state := set_uart_rx_cnt 512 initial_state.

(** C5, as stated, fails when the span equals the capacity: the pass
    takes the discarding branch ([cnt >= UART_BUFFER_SIZE]), offers no run
    and moves [usb_tx_cnt] although the USB stack was given nothing. *)

Lemma full_span_is_not_offered :
  rx_busy full_buffer_env <> 0 /\
  0 < observed_span full_buffer_env full_buffer_state <= UART_BUFFER_SIZE /\
  snd (drain_tick full_buffer_env full_buffer_state) = None /\
  usb_tx_cnt full_buffer_state = 0 /\
  usb_tx_cnt (fst (drain_tick full_buffer_env full_buffer_state)) = 512.
Proof.
  vm_compute. repeat split; discriminate.
Qed.

(** C5, amended. For every value of the counters for which a pass finds
    the receiver busy and a positive span below [UART_BUFFER_SIZE], the
    pass offers the USB stack one run of [uart_rx_buf]: it starts at
    [usb_tx_cnt mod UART_BUFFER_SIZE], is not empty and ends at the end of
    the buffer at the latest. When the stack takes [n >= 1] bytes only
    [usb_tx_cnt] changes, by [n] (as an [int32_t] addition); when it takes
    none, the state is left as it was. *)
Theorem drain_tick_hands_off_clipped_run (e : tick_env) (s : state) :
  rx_busy e <> 0 ->
  0 < observed_span e s < UART_BUFFER_SIZE ->
  let offset := usb_tx_cnt s mod UART_BUFFER_SIZE in
  let len := Z.min (observed_span e s) (UART_BUFFER_SIZE - offset) in
  let n := USBD_CDC_ACM_WriteData e offset len in
  snd (drain_tick e s) = Some (offset, len) /\
  0 <= offset /\ 0 < len /\ offset + len <= UART_BUFFER_SIZE /\
  (1 <= n ->
   fst (drain_tick e s) = set_usb_tx_cnt (int32 (usb_tx_cnt s + n)) s) /\
  (1 <= n -> in_int32 (usb_tx_cnt s + n) ->
   usb_tx_cnt (fst (drain_tick e s)) = usb_tx_cnt s + n) /\
  (n <= 0 -> fst (drain_tick e s) = s).
Proof.
  intros Hbusy Hspan offset len n.
  pose proof (drain_tick_offer e s Hbusy Hspan) as Htick.
  cbv zeta in Htick. fold offset in Htick. fold len in Htick.
  fold n in Htick. rewrite Htick. cbn [fst snd].
  assert (Hoff : 0 <= offset < UART_BUFFER_SIZE)
    by (apply Z.mod_pos_bound; reflexivity).
  repeat split; try (unfold len; lia).
  - intros Hn. destruct (n >? 0) eqn:Hc; [reflexivity | lia].
  - intros Hn Hsum. destruct (n >? 0) eqn:Hc; [| lia].
    cbn. now apply int32_id.
  - intros Hn. destruct (n >? 0) eqn:Hc; [lia | reflexivity].
Qed.

Definition wrapping_env : tick_env := mkTickEnv 1 20 (fun _ n => n).
Definition wrapping_state : state :=
  set_usb_tx_cnt 1020 (set_uart_rx_cnt 1024 initial_state).

Lemma drain_tick_hands_off_clipped_run_witness :
  snd (drain_tick wrapping_env wrapping_state) = Some (508, 4) /\
  usb_tx_cnt (fst (drain_tick wrapping_env wrapping_state)) = 1024.
Proof.
  destruct (drain_tick_hands_off_clipped_run wrapping_env wrapping_state)
    as (Hrun & _ & _ & _ & _ & Hadv & _).
  - vm_compute. discriminate.
  - vm_compute. split; reflexivity.
  - split.
    + exact Hrun.
    + apply Hadv; vm_compute; [| split]; (discriminate || reflexivity).
Defined.

(** ** The counters over a run of completions and passes *)

(** What the driver and the USB stack are taken to answer: a reception
    count within the armed length, and no more bytes taken than offered. *)
Definition tick_env_ok (e : tick_env) : Prop :=
  0 <= GetRxCount e <= UART_BUFFER_SIZE /\
  forall offset n, USBD_CDC_ACM_WriteData e offset n <= n.

Definition bridge_op_ok (o : bridge_op) : Prop :=
  match o with
  | RxComplete => True
  | DrainTick e => tick_env_ok e
  end.

(** After at most [k] operations. *)
Definition counters_inv (k : Z) (s : state) : Prop :=
  0 <= uart_rx_cnt s <= UART_BUFFER_SIZE * k /\
  0 <= usb_tx_cnt s <= uart_rx_cnt s + UART_BUFFER_SIZE.

Section CounterBounds.

Ltac range_lia := unfold in_int32, half_modulus, UART_BUFFER_SIZE in *; lia.

Lemma rx_complete_step pending s :
  UART_Callback pending ARM_USART_EVENT_RECEIVE_COMPLETE s =
    ptrUART (Receive UART_BUFFER_SIZE)
      (set_uart_rx_cnt (int32 (uart_rx_cnt s + UART_BUFFER_SIZE)) s).
Proof. reflexivity. Qed.

Lemma observed_span_exact e s :
  0 <= uart_rx_cnt s ->
  0 <= usb_tx_cnt s <= uart_rx_cnt s + UART_BUFFER_SIZE ->
  uart_rx_cnt s + UART_BUFFER_SIZE < half_modulus ->
  0 <= GetRxCount e <= UART_BUFFER_SIZE ->
  observed_span e s = uart_rx_cnt s + GetRxCount e - usb_tx_cnt s.
Proof.
  unfold observed_span, UART_BUFFER_SIZE, half_modulus. intros Hrx Htx Hmax Hr.
  rewrite (int32_id (GetRxCount e)) by (unfold in_int32, half_modulus; lia).
  rewrite (int32_id (uart_rx_cnt s + GetRxCount e))
    by (unfold in_int32, half_modulus; lia).
  apply int32_id. unfold in_int32, half_modulus. lia.
Qed.

(** One pass on counters in range: [uart_rx_cnt] is kept, [usb_tx_cnt]
    does not go back nor pass the received total, and a pass that found
    the receiver busy leaves less than a buffer unread. *)
Lemma drain_tick_counters e s :
  tick_env_ok e ->
  0 <= uart_rx_cnt s ->
  0 <= usb_tx_cnt s <= uart_rx_cnt s + UART_BUFFER_SIZE ->
  uart_rx_cnt s + UART_BUFFER_SIZE < half_modulus ->
  uart_rx_cnt (fst (drain_tick e s)) = uart_rx_cnt s /\
  usb_tx_cnt s <= usb_tx_cnt (fst (drain_tick e s))
    <= uart_rx_cnt s + UART_BUFFER_SIZE /\
  (rx_busy e <> 0 -> unread_span (fst (drain_tick e s)) < UART_BUFFER_SIZE).
Proof.
  intros [Hr Hw] Hrx Htx Hmax.
  destruct (Z.eq_dec (rx_busy e) 0) as [Hidle | Hbusy].
  { rewrite drain_tick_not_busy by assumption. cbn. range_lia. }
  pose proof (observed_span_exact e s Hrx Htx Hmax Hr) as Hspan.
  unfold unread_span.
  destruct (Z_le_gt_dec UART_BUFFER_SIZE (observed_span e s)) as [Hfull | Hless].
  - rewrite drain_tick_dump by assumption. cbn.
    rewrite (int32_id (GetRxCount e)) by range_lia.
    rewrite int32_id by range_lia.
    range_lia.
  - destruct (Z_lt_le_dec 0 (observed_span e s)) as [Hpos | Hnone].
    + rewrite (drain_tick_offer e s Hbusy) by lia. cbn [fst].
      set (offset := usb_tx_cnt s mod UART_BUFFER_SIZE).
      set (len := Z.min (observed_span e s) (UART_BUFFER_SIZE - offset)).
      pose proof (Hw offset len) as Hn.
      destruct (USBD_CDC_ACM_WriteData e offset len >? 0) eqn:Hc.
      * cbn. rewrite int32_id by range_lia. range_lia.
      * range_lia.
    + rewrite drain_tick_idle by assumption. cbn. range_lia.
Qed.

Lemma bridge_step_inv k s o :
  0 <= k ->
  counters_inv k s ->
  bridge_op_ok o ->
  UART_BUFFER_SIZE * (k + 2) < half_modulus ->
  counters_inv (k + 1) (bridge_step s o).
Proof.
  intros Hk [Hrx Htx] Hok Hmax. destruct o as [| e]; cbn [bridge_step].
  - rewrite rx_complete_step.
    unfold counters_inv, ptrUART, set_uart_rx_cnt.
    cbn [uart_rx_cnt usb_tx_cnt].
    rewrite int32_id by range_lia. range_lia.
  - destruct (drain_tick_counters e s Hok) as (Hrx' & Htx' & _);
      try range_lia.
    unfold counters_inv. rewrite Hrx'. range_lia.
Qed.

Lemma bridge_run_inv ops : forall k s,
  0 <= k ->
  counters_inv k s ->
  Forall bridge_op_ok ops ->
  UART_BUFFER_SIZE * (k + Z.of_nat (List.length ops) + 1) < half_modulus ->
  counters_inv (k + Z.of_nat (List.length ops)) (bridge_run ops s).
Proof.
  induction ops as [| o ops IH]; intros k s Hk Hinv Hok Hmax.
  - cbn. now rewrite Z.add_0_r.
  - inversion Hok as [| ? ? Ho Hops]; subst.
    cbn [bridge_run fold_left List.length] in *.
    rewrite Nat2Z.inj_succ in *.
    replace (k + Z.succ (Z.of_nat (List.length ops)))
      with (k + 1 + Z.of_nat (List.length ops)) by lia.
    apply IH; try assumption; try range_lia.
    apply bridge_step_inv; try assumption. range_lia.
Qed.

Lemma initial_counters_inv : counters_inv 0 initial_state.
Proof. vm_compute. repeat split; discriminate. Qed.

Lemma bridge_run_snoc ops o s :
  bridge_run (ops ++ [o]) s = bridge_step (bridge_run ops s) o.
Proof. unfold bridge_run. now rewrite fold_left_app. Qed.

End CounterBounds.

(** Ten bytes of a reception in flight, and a USB stack that takes all it
    is offered. *)
Definition eager_env : tick_env := mkTickEnv 1 10 (fun _ n => n).

(** C1, as stated, fails on both sides. Two completions in a row leave
    1024 bytes between the counters, above the capacity, until the next
    pass of the thread; and a pass that forwards bytes of the reception in
    flight moves [usb_tx_cnt] ahead of [uart_rx_cnt], which only counts
    completed receptions. *)

Lemma counter_invariant_counterexample :
  ~ (0 <= unread_span (bridge_run [RxComplete; RxComplete] initial_state)
       <= UART_BUFFER_SIZE) /\
  ~ (0 <= unread_span (bridge_run [DrainTick eager_env] initial_state)
       <= UART_BUFFER_SIZE).
Proof.
  split; vm_compute; intros [H1 H2]; [apply H2 | apply H1]; reflexivity.
Qed.

(** C1, amended. Start from the zeroed counters and run any sequence of
    completion events and passes of the thread, the driver reporting a
    reception count between 0 and [UART_BUFFER_SIZE], the USB stack taking
    no more than it is offered, and the sequence short enough for
    [uart_rx_cnt] not to wrap. Then after every operation
    [- UART_BUFFER_SIZE <= uart_rx_cnt - usb_tx_cnt]; after every pass that
    finds the receiver busy [uart_rx_cnt - usb_tx_cnt < UART_BUFFER_SIZE];
    and a completion event raises the difference by [UART_BUFFER_SIZE], so
    that no upper bound holds between two passes. *)
Theorem counter_bounds (ops : list bridge_op) :
  Forall bridge_op_ok ops ->
  UART_BUFFER_SIZE * (Z.of_nat (List.length ops) + 2) < half_modulus ->
  - UART_BUFFER_SIZE <= unread_span (bridge_run ops initial_state) /\
  (forall e, tick_env_ok e -> rx_busy e <> 0 ->
     unread_span (bridge_run (ops ++ [DrainTick e]) initial_state)
       < UART_BUFFER_SIZE) /\
  unread_span (bridge_run (ops ++ [RxComplete]) initial_state) =
    unread_span (bridge_run ops initial_state) + UART_BUFFER_SIZE.
Proof.
  intros Hok Hmax.
  destruct (bridge_run_inv ops 0 initial_state) as [Hrx Htx];
    [lia | apply initial_counters_inv | assumption
    | unfold UART_BUFFER_SIZE, half_modulus in *; lia |].
  rewrite Z.add_0_l in Hrx.
  repeat split.
  - unfold unread_span. lia.
  - intros e He Hbusy. rewrite bridge_run_snoc. cbn [bridge_step].
    apply drain_tick_counters; try assumption;
      unfold UART_BUFFER_SIZE, half_modulus in *; lia.
  - rewrite bridge_run_snoc. cbn [bridge_step]. rewrite rx_complete_step.
    unfold unread_span, ptrUART, set_uart_rx_cnt.
    cbn [uart_rx_cnt usb_tx_cnt].
    rewrite int32_id
      by (unfold in_int32, UART_BUFFER_SIZE, half_modulus in *; lia).
    ring.
Qed.

Definition sample_run : list bridge_op :=
  [RxComplete; DrainTick eager_env; RxComplete; RxComplete].

Lemma counter_bounds_witness :
  - UART_BUFFER_SIZE <= unread_span (bridge_run sample_run initial_state) /\
  unread_span (bridge_run (sample_run ++ [DrainTick eager_env]) initial_state)
    < UART_BUFFER_SIZE.
Proof.
  destruct (counter_bounds sample_run) as (Hlow & Hhigh & _).
  - assert (Hok : tick_env_ok eager_env)
      by (split; [vm_compute; split; discriminate | intros; cbn; lia]).
    unfold sample_run.
    repeat (apply Forall_cons; [exact I || exact Hok |]). apply Forall_nil.
  - vm_compute. reflexivity.
  - split.
    + exact Hlow.
    + apply Hhigh.
      * split; [vm_compute; split; discriminate | intros; cbn; lia].
      * vm_compute. discriminate.
Defined.

(** ** Dispatch on the command name *)

(** A buffer holding a line the way the receive callback leaves it: the
    characters, then NUL. *)
Definition c_string (line : string) : list Z := str line ++ [0].

Section Dispatch.

(** [strncmp] answers 0 exactly when the two strings agree on their first
    [n] characters. *)
Lemma strncmp_zero_iff n : forall s1 s2,
  strncmp s1 s2 n = 0 <-> firstn n (cstr s1) = firstn n (cstr s2).
Proof.
  induction n as [| n IH]; intros s1 s2.
  - cbn. tauto.
  - destruct s1 as [| a r1], s2 as [| b r2]; cbn [strncmp hd tl cstr].
    + cbn. tauto.
    + destruct (Z.eqb_spec 0 b) as [<- | Hb].
      * cbn. tauto.
      * destruct (Z.eqb_spec b 0) as [-> | _]; [congruence |].
        cbn. split; [lia | discriminate].
    + destruct (Z.eqb_spec a 0) as [-> | Ha].
      * cbn. tauto.
      * cbn. split; [lia | discriminate].
    + destruct (Z.eqb_spec a b) as [<- | Hab].
      * destruct (Z.eqb_spec a 0) as [-> | Ha]; [tauto |].
        cbn [firstn]. rewrite IH. split; [congruence |].
        intros H. now inversion H.
      * destruct (Z.eqb_spec a 0) as [-> | Ha],
                 (Z.eqb_spec b 0) as [-> | Hb]; cbn [firstn];
          (split; [lia | congruence || discriminate]).
Qed.

Lemma strncmp_differs n s1 s2 :
  firstn n (cstr s1) <> firstn n (cstr s2) -> (strncmp s1 s2 n =? 0) = false.
Proof.
  intros H. apply Z.eqb_neq. now rewrite strncmp_zero_iff.
Qed.

End Dispatch.

(** C7. A line that begins with none of [AT+LED], [AT+LCD], [AT+BUTTON]
    and [AT+POT] (the characters [process_AT_command] compares) leaves the
    whole state as it was: the outputs, [storedLCDString], the counters,
    [uart_tx_buf], and the list of driver calls, so nothing is sent. *)
Theorem unknown_command_is_ignored (e : cmd_env) (buf : list Z) (s : state) :
  firstn 6 (cstr buf) <> str "AT+LED" ->
  firstn 6 (cstr buf) <> str "AT+LCD" ->
  firstn 9 (cstr buf) <> str "AT+BUTTON" ->
  firstn 6 (cstr buf) <> str "AT+POT" ->
  process_AT_command e buf s = s.
Proof.
  intros Hled Hlcd Hbutton Hpot. unfold process_AT_command.
  rewrite (strncmp_differs 6 buf (str "AT+LED")) by exact Hled.
  rewrite (strncmp_differs 6 buf (str "AT+LCD=")) by exact Hlcd.
  rewrite (strncmp_differs 9 buf (str "AT+BUTTON")) by exact Hbutton.
  rewrite (strncmp_differs 6 buf (str "AT+POT")) by exact Hpot.
  reflexivity.
Qed.

Definition quiet_env : cmd_env := mkCmdEnv (fun _ => 0) (fun _ => 0) 0.

Lemma unknown_command_is_ignored_witness :
  process_AT_command quiet_env (c_string "AT+FOO") initial_state
    = initial_state.
Proof.
  apply unknown_command_is_ignored; vm_compute; discriminate.
Defined.

(** ** The digital outputs *)

(** A pin of a register is high. *)
Definition is_set (reg pin : Z) : bool := negb (Z.land reg pin =? 0).

(** Output [k] (1 to 8) is driven high. *)
Definition led_on (k : Z) (g : gpio_regs) : bool :=
  match LED k with
  | Some (port, pin) => is_set (ODR g port) pin
  | None => false
  end.

Definition port_eqb (p q : GPIO_TypeDef) : bool :=
  match p, q with
  | GPIOA, GPIOA | GPIOB, GPIOB | GPIOF, GPIOF
  | GPIOG, GPIOG | GPIOH, GPIOH | GPIOI, GPIOI => true
  | _, _ => false
  end.

Section Outputs.

Lemma GPIO_PIN_pow2 n : 0 <= n -> GPIO_PIN n = 2 ^ n.
Proof. intros H. unfold GPIO_PIN. now rewrite Z.shiftl_1_l. Qed.

Lemma is_set_pin reg n : 0 <= n -> is_set reg (GPIO_PIN n) = Z.testbit reg n.
Proof.
  intros Hn. unfold is_set. rewrite GPIO_PIN_pow2 by assumption.
  destruct (Z.testbit reg n) eqn:Hbit.
  - destruct (Z.eqb_spec (Z.land reg (2 ^ n)) 0) as [Hz | _]; [| reflexivity].
    apply (f_equal (fun x => Z.testbit x n)) in Hz.
    rewrite Z.land_spec, Hbit, Z.pow2_bits_true, Z.bits_0 in Hz by assumption.
    discriminate.
  - replace (Z.land reg (2 ^ n)) with 0; [reflexivity |].
    symmetry. apply Z.bits_inj'. intros m Hm.
    rewrite Z.land_spec, Z.bits_0, Z.pow2_bits_eqb by assumption.
    destruct (Z.eqb_spec n m) as [<- | _].
    + now rewrite Hbit.
    + apply andb_false_r.
Qed.

Lemma ODR_set_ODR g p v q :
  ODR (set_ODR g p v) q = if port_eqb p q then v else ODR g q.
Proof. destruct g, p, q; reflexivity. Qed.

(** What [HAL_GPIO_WritePin] does to each bit of each register. *)
Lemma testbit_WritePin g port m level q n :
  0 <= m -> 0 <= n ->
  Z.testbit (ODR (HAL_GPIO_WritePin g port (GPIO_PIN m) level) q) n =
    if port_eqb port q && (m =? n)
    then negb (level =? GPIO_PIN_RESET)
    else Z.testbit (ODR g q) n.
Proof.
  intros Hm Hn. unfold HAL_GPIO_WritePin.
  rewrite GPIO_PIN_pow2 by assumption.
  destruct (level =? GPIO_PIN_RESET); rewrite ODR_set_ODR;
    destruct (port_eqb port q) eqn:Hport; cbn [andb negb]; try reflexivity.
  - rewrite Z.ldiff_spec, Z.pow2_bits_eqb by assumption.
    replace q with port by (destruct port, q; discriminate || reflexivity).
    destruct (m =? n); cbn; [apply andb_false_r | apply andb_true_r].
  - rewrite Z.lor_spec, Z.pow2_bits_eqb by assumption.
    replace q with port by (destruct port, q; discriminate || reflexivity).
    destruct (m =? n); cbn; [apply orb_true_r | apply orb_false_r].
Qed.

Lemma gpio_regs_ext g1 g2 :
  (forall q n, 0 <= n -> Z.testbit (ODR g1 q) n = Z.testbit (ODR g2 q) n) ->
  g1 = g2.
Proof.
  intros H. destruct g1, g2.
  f_equal; apply Z.bits_inj'; intros n Hn.
  - apply (H GPIOA n Hn).
  - apply (H GPIOB n Hn).
  - apply (H GPIOF n Hn).
  - apply (H GPIOG n Hn).
  - apply (H GPIOH n Hn).
  - apply (H GPIOI n Hn).
Qed.

(** The eight passes of the loop, in order. *)
Lemma led_loop_unrolled e bs g :
  let level i :=
    if read_binaryString e bs i =? 49 then GPIO_PIN_SET else GPIO_PIN_RESET in
  led_loop e bs 8 0 g =
    HAL_GPIO_WritePin
      (HAL_GPIO_WritePin
         (HAL_GPIO_WritePin
            (HAL_GPIO_WritePin
               (HAL_GPIO_WritePin
                  (HAL_GPIO_WritePin
                     (HAL_GPIO_WritePin
                        (HAL_GPIO_WritePin g GPIOF (GPIO_PIN 6) (level 0))
                        GPIOB (GPIO_PIN 4) (level 1))
                     GPIOG (GPIO_PIN 7) (level 2))
                  GPIOI (GPIO_PIN 0) (level 3))
               GPIOH (GPIO_PIN 6) (level 4))
            GPIOI (GPIO_PIN 3) (level 5))
         GPIOA (GPIO_PIN 15) (level 6))
      GPIOA (GPIO_PIN 8) (level 7).
Proof. reflexivity. Qed.

(** Every bit of every register after the loop. *)
Lemma testbit_led_loop e bs g q n :
  0 <= n ->
  let on i := read_binaryString e bs i =? 49 in
  Z.testbit (ODR (led_loop e bs 8 0 g) q) n =
    match q with
    | GPIOA => if n =? 8 then on 7 else if n =? 15 then on 6
               else Z.testbit (odrA g) n
    | GPIOB => if n =? 4 then on 1 else Z.testbit (odrB g) n
    | GPIOF => if n =? 6 then on 0 else Z.testbit (odrF g) n
    | GPIOG => if n =? 7 then on 2 else Z.testbit (odrG g) n
    | GPIOH => if n =? 6 then on 4 else Z.testbit (odrH g) n
    | GPIOI => if n =? 3 then on 5 else if n =? 0 then on 3
               else Z.testbit (odrI g) n
    end.
Proof.
  intros Hn on. rewrite led_loop_unrolled. cbv zeta.
  rewrite !testbit_WritePin by lia.
  assert (Hlevel : forall i,
    negb ((if read_binaryString e bs i =? 49
           then GPIO_PIN_SET else GPIO_PIN_RESET) =? GPIO_PIN_RESET) = on i).
  { intros i. unfold on. now destruct (read_binaryString e bs i =? 49). }
  rewrite !Hlevel.
  destruct q; cbn [port_eqb andb ODR];
    repeat match goal with
    | |- context [?a =? n] => rewrite (Z.eqb_sym a n)
    end; reflexivity.
Qed.

(** Running the loop again on its own result, with the same bytes read,
    changes no register. *)
Lemma led_loop_idempotent e bs g :
  led_loop e bs 8 0 (led_loop e bs 8 0 g) = led_loop e bs 8 0 g.
Proof.
  apply gpio_regs_ext. intros q n Hn.
  rewrite (testbit_led_loop e bs (led_loop e bs 8 0 g)) by assumption.
  cbv zeta.
  pose proof (testbit_led_loop e bs g) as H. cbv zeta in H.
  destruct q;
    [ change (odrA ?x) with (ODR x GPIOA) | change (odrB ?x) with (ODR x GPIOB)
    | change (odrF ?x) with (ODR x GPIOF) | change (odrG ?x) with (ODR x GPIOG)
    | change (odrH ?x) with (ODR x GPIOH) | change (odrI ?x) with (ODR x GPIOI) ];
    rewrite !H by assumption;
    repeat match goal with
    | |- context [n =? ?a] => destruct (n =? a)
    end; reflexivity.
Qed.

End Outputs.

(** ** The commands *)

Section Commands.

Variable e : cmd_env.
Variable s : state.

Lemma dispatch_LED5 :
  process_AT_command e (c_string "AT+LED5") s =
    format_reply (str "LED value set to: 5" ++ [CR; LF])
      (set_gpio (led_loop e (str "0101" ++ [0]) 8 0 (gpio s)) s).
Proof. reflexivity. Qed.

Lemma dispatch_LED4 :
  process_AT_command e (c_string "AT+LED4") s =
    format_reply (str "LED value set to: 4" ++ [CR; LF])
      (set_gpio (led_loop e (str "0100" ++ [0]) 8 0 (gpio s)) s).
Proof. reflexivity. Qed.

Lemma dispatch_LCD_Hello :
  process_AT_command e (c_string "AT+LCD=Hello") s =
    format_reply (str "LCD string set to: =Hello" ++ [CR; LF])
      (storeLCDString (str "=Hello" ++ [0]) s).
Proof. reflexivity. Qed.

(** The level of an output after the loop, for the outputs whose character
    lies inside [binaryString]. *)
Lemma led_on_after_loop bs g k port m :
  LED k = Some (port, GPIO_PIN m) -> 0 <= m ->
  led_on k (led_loop e bs 8 0 g) =
    Z.testbit (ODR (led_loop e bs 8 0 g) port) m.
Proof.
  intros Hk Hm. unfold led_on. rewrite Hk. now apply is_set_pin.
Qed.

End Commands.

(** With the same bytes behind [binaryString] at both dispatches, a second
    [AT+LED4] changes no output. *)
Lemma LED4_again_same_bytes (e : cmd_env) (s : state) :
  gpio (process_AT_command e (c_string "AT+LED4")
          (process_AT_command e (c_string "AT+LED4") s))
  = gpio (process_AT_command e (c_string "AT+LED4") s).
Proof.
  rewrite !dispatch_LED4. cbn [format_reply set_uart_tx_buf set_gpio gpio].
  apply led_loop_idempotent.
Qed.

(** Whatever lies behind [binaryString], outputs 1 to 5 follow the
    characters ["0100"] and the terminator. *)
Lemma LED4_first_five (e : cmd_env) (s : state) :
  let g := gpio (process_AT_command e (c_string "AT+LED4") s) in
  led_on 1 g = false /\ led_on 2 g = true /\ led_on 3 g = false /\
  led_on 4 g = false /\ led_on 5 g = false.
Proof.
  rewrite dispatch_LED4. cbn [format_reply set_uart_tx_buf set_gpio gpio].
  repeat split.
  - rewrite (led_on_after_loop e _ _ 1 GPIOF 6) by (reflexivity || lia).
    now rewrite testbit_led_loop by lia.
  - rewrite (led_on_after_loop e _ _ 2 GPIOB 4) by (reflexivity || lia).
    now rewrite testbit_led_loop by lia.
  - rewrite (led_on_after_loop e _ _ 3 GPIOG 7) by (reflexivity || lia).
    now rewrite testbit_led_loop by lia.
  - rewrite (led_on_after_loop e _ _ 4 GPIOI 0) by (reflexivity || lia).
    now rewrite testbit_led_loop by lia.
  - rewrite (led_on_after_loop e _ _ 5 GPIOH 6) by (reflexivity || lia).
    now rewrite testbit_led_loop by lia.
Qed.

(** C6. [AT+LED5]: [intToBinaryString] yields ["0101"]; whatever the
    outputs were and whatever lies behind [binaryString], outputs 1 and 3
    end low and outputs 2 and 4 high. The reply text is formatted into
    [uart_tx_buf], but no driver call is added: unlike the [AT+BUTTON] and
    [AT+POT] branches, this one never calls [Send], so the reply does not
    reach the serial side. *)
Theorem LED5_sets_outputs_but_sends_nothing (e : cmd_env) (s : state) :
  let s' := process_AT_command e (c_string "AT+LED5") s in
  intToBinaryString 5 (repeat 0 5) 4 = str "0101" ++ [0] /\
  led_on 1 (gpio s') = false /\ led_on 2 (gpio s') = true /\
  led_on 3 (gpio s') = false /\ led_on 4 (gpio s') = true /\
  cstr (uart_tx_buf s') = str "LED value set to: 5" ++ [CR; LF] /\
  usart s' = usart s.
Proof.
  rewrite dispatch_LED5.
  cbn [format_reply set_uart_tx_buf set_gpio gpio usart uart_tx_buf].
  repeat split.
  - rewrite (led_on_after_loop e _ _ 1 GPIOF 6) by (reflexivity || lia).
    now rewrite testbit_led_loop by lia.
  - rewrite (led_on_after_loop e _ _ 2 GPIOB 4) by (reflexivity || lia).
    now rewrite testbit_led_loop by lia.
  - rewrite (led_on_after_loop e _ _ 3 GPIOG 7) by (reflexivity || lia).
    now rewrite testbit_led_loop by lia.
  - rewrite (led_on_after_loop e _ _ 4 GPIOI 0) by (reflexivity || lia).
    now rewrite testbit_led_loop by lia.
Qed.

(** A branch that does send, for comparison: [AT+BUTTON] adds a [Send] of
    its reply to the driver calls. *)
Lemma BUTTON_reply_is_sent (s : state) :
  usart (process_AT_command quiet_env (c_string "AT+BUTTON") s) =
    usart s ++ [Send (str "All buttons are pressed" ++ [CR; LF])].
Proof. reflexivity. Qed.

(** Two dispatches that differ only in the bytes found behind
    [binaryString]. *)
Definition ones_behind : cmd_env := mkCmdEnv (fun _ => 49) (fun _ => 0) 0.
Definition zeros_behind : cmd_env := mkCmdEnv (fun _ => 0) (fun _ => 0) 0.

(** C8. [AT+LED4] dispatched twice against dispatched once, from the
    initial outputs: the loop reads [binaryString[5]] to [binaryString[7]]
    behind the five elements of the array, and with ['1'] there at the
    first dispatch and NUL at the second, outputs 6 to 8 are high after one
    dispatch and low after two. *)
Theorem LED4_twice_differs_from_once :
  let once :=
    process_AT_command ones_behind (c_string "AT+LED4") initial_state in
  let twice := process_AT_command zeros_behind (c_string "AT+LED4") once in
  gpio twice <> gpio once /\
  map (fun k => led_on k (gpio once)) [6; 7; 8] = [true; true; true] /\
  map (fun k => led_on k (gpio twice)) [6; 7; 8] = [false; false; false].
Proof.
  vm_compute. repeat split. discriminate.
Qed.

(** C4. [AT+LCD=Hello]: the branch compares six characters and takes the
    text from [cmd_buffer + 6], so the stored string and the reply keep the
    ['='], against the comment in the branch (the string after
    ["AT+LCD="]); and the reply is only formatted into [uart_tx_buf], no
    [Send] is issued. *)
Theorem LCD_Hello_keeps_equals_sign (e : cmd_env) (s : state) :
  let s' := process_AT_command e (c_string "AT+LCD=Hello") s in
  cstr (storedLCDString s') = str "=Hello" /\
  cstr (storedLCDString s') <> str "Hello" /\
  cstr (uart_tx_buf s') = str "LCD string set to: =Hello" ++ [CR; LF] /\
  usart s' = usart s.
Proof.
  rewrite dispatch_LCD_Hello.
  assert (Hstored :
    cstr (storedLCDString
            (format_reply (str "LCD string set to: =Hello" ++ [CR; LF])
               (storeLCDString (str "=Hello" ++ [0]) s))) = str "=Hello").
  { cbn [format_reply set_uart_tx_buf storedLCDString storeLCDString
         set_storedLCDString]. reflexivity. }
  cbv zeta. rewrite Hstored. repeat split. discriminate.
Qed.

(** ** The line buffer *)

(** The index of the write outside [cmd_buffer], when there is one. *)
Definition fault_index (o : outcome) : option Z :=
  match o with
  | Returned _ => None
  | OutOfBounds index _ => Some index
  end.

Section LineBuffer.

Variable e : cmd_env.

(** No test guards the cursor: once it stands at [CMD_BUFFER_SIZE] the
    next byte, terminator or not, is written behind the array. *)
Lemma receive_loop_full_buffer b rest s :
  cmd_buffer_cnt s = CMD_BUFFER_SIZE ->
  receive_loop e (b :: rest) s = OutOfBounds CMD_BUFFER_SIZE s.
Proof.
  intros Hcnt. cbn [receive_loop]. rewrite Hcnt. reflexivity.
Qed.

(** A line of [CMD_BUFFER_SIZE] characters or more, received from an empty
    line buffer, ends in such a write, at index 64, before its terminator
    is processed. *)
Lemma receive_loop_long_line rest : forall line s,
  Forall (fun b => b <> CR) line ->
  0 <= cmd_buffer_cnt s <= CMD_BUFFER_SIZE ->
  CMD_BUFFER_SIZE <= cmd_buffer_cnt s + Z.of_nat (List.length line) ->
  fault_index (receive_loop e (line ++ CR :: rest) s) = Some CMD_BUFFER_SIZE.
Proof.
  induction line as [| b line IH]; intros s Hline Hcnt Hlen.
  - cbn [List.length Z.of_nat] in Hlen. cbn [app].
    rewrite receive_loop_full_buffer by lia. reflexivity.
  - destruct (Z.eq_dec (cmd_buffer_cnt s) CMD_BUFFER_SIZE) as [Hfull | Hroom].
    + cbn [app]. rewrite receive_loop_full_buffer by assumption. reflexivity.
    + inversion Hline as [| ? ? Hb Hrest]; subst.
      cbn [app receive_loop].
      assert (Hin : (0 <=? cmd_buffer_cnt s)
                    && (cmd_buffer_cnt s <? CMD_BUFFER_SIZE) = true).
      { apply andb_true_intro. split; [apply Z.leb_le | apply Z.ltb_lt]; lia. }
      rewrite Hin.
      destruct (Z.eqb_spec b CR) as [-> | _]; [congruence |].
      apply IH; [assumption | cbn; lia |].
      cbn [List.length] in Hlen. rewrite Nat2Z.inj_succ in Hlen. cbn. lia.
Qed.

(** The callback runs the loop on the bytes it has just read. *)
Lemma DataReceived_runs_loop pending s :
  let got := firstn (Z.to_nat USB_RECEIVE_BUFFER_SIZE) pending in
  got <> [] ->
  USBD_CDC0_ACM_DataReceived e pending s =
    receive_loop e got
      (set_usb_receive_buffer
         (got ++ skipn (List.length got) (usb_receive_buffer s)) s).
Proof.
  intros got Hgot.
  unfold USBD_CDC0_ACM_DataReceived, USBD_CDC_ACM_ReadData. fold got.
  destruct (Z.of_nat (List.length got) >? 0) eqn:Hcnt.
  - rewrite Nat2Z.id. cbn [usb_receive_buffer set_usb_receive_buffer].
    rewrite firstn_app, firstn_all, Nat.sub_diag, firstn_O, app_nil_r.
    reflexivity.
  - destruct got; [congruence |].
    rewrite Z.gtb_ltb in Hcnt. apply Z.ltb_ge in Hcnt.
    simpl List.length in Hcnt. lia.
Qed.

Lemma firstn_line_and_terminator (n : nat) (line rest : list Z) :
  (List.length line < n)%nat ->
  firstn n (line ++ CR :: rest) =
    line ++ CR :: firstn (n - List.length line - 1) rest.
Proof.
  intros Hlen. rewrite firstn_app, firstn_all2 by lia.
  destruct (n - List.length line)%nat as [| k] eqn:Hk; [lia |].
  cbn [firstn]. now rewrite Nat.sub_1_r.
Qed.

End LineBuffer.

(** A line that fits is accumulated, dispatched at its terminator, and the
    cursor goes back to the start of the buffer. *)
Lemma short_line_is_dispatched :
  match
    USBD_CDC0_ACM_DataReceived quiet_env (str "AT+LED5" ++ [CR]) initial_state
  with
  | Returned s =>
      cmd_buffer_cnt s = 0 /\
      firstn 8 (cmd_buffer s) = c_string "AT+LED5" /\
      map (fun k => led_on k (gpio s)) [1; 2; 3; 4]
        = [false; true; false; true]
  | OutOfBounds _ _ => False
  end.
Proof. vm_compute. repeat split. Qed.

(** C3. A line longer than the line buffer (64 characters or more,
    delivered with its carriage return in one call to
    [USBD_CDC0_ACM_DataReceived] while the cursor is at 0) is not
    truncated: the callback writes [cmd_buffer[64]], behind the 64
    elements of the array, before any dispatch of the line takes place.
    Nothing is dropped and no guard keeps the writes inside the buffer. *)
Theorem long_line_is_written_past_cmd_buffer (e : cmd_env)
    (line rest : list Z) (s : state) :
  Forall (fun b => b <> CR) line ->
  cmd_buffer_cnt s = 0 ->
  CMD_BUFFER_SIZE <= Z.of_nat (List.length line) < USB_RECEIVE_BUFFER_SIZE ->
  fault_index (USBD_CDC0_ACM_DataReceived e (line ++ CR :: rest) s)
    = Some CMD_BUFFER_SIZE.
Proof.
  intros Hline Hcnt Hlen.
  assert (Hfit : (List.length line < Z.to_nat USB_RECEIVE_BUFFER_SIZE)%nat)
    by (unfold USB_RECEIVE_BUFFER_SIZE in *; lia).
  rewrite DataReceived_runs_loop;
    rewrite (firstn_line_and_terminator _ line rest Hfit).
  - apply receive_loop_long_line.
    + exact Hline.
    + cbn [cmd_buffer_cnt set_usb_receive_buffer]. rewrite Hcnt.
      unfold CMD_BUFFER_SIZE. lia.
    + cbn [cmd_buffer_cnt set_usb_receive_buffer]. rewrite Hcnt. lia.
  - destruct line; discriminate.
Qed.

Lemma long_line_is_written_past_cmd_buffer_witness :
  fault_index
    (USBD_CDC0_ACM_DataReceived quiet_env (repeat 65 65 ++ [CR]) initial_state)
  = Some CMD_BUFFER_SIZE.
Proof.
  apply (long_line_is_written_past_cmd_buffer quiet_env (repeat 65 65) []).
  - apply Forall_forall. intros b Hb.
    apply repeat_spec in Hb. subst b. discriminate.
  - reflexivity.
  - vm_compute. split; [discriminate | reflexivity].
Defined.

(** ** Line coding and teardown *)

Section LineCoding.

Lemma SetLineCoding_accepts status line_coding s :
  fst (USBD_CDC0_ACM_SetLineCoding status line_coding s) = true ->
  let s' := snd (USBD_CDC0_ACM_SetLineCoding status line_coding s) in
  cdc_acm_line_coding s' = line_coding /\
  uart_rx_cnt s' = 0 /\ usb_tx_cnt s' = 0.
Proof.
  unfold USBD_CDC0_ACM_SetLineCoding.
  destruct (stop_bits_of _); [| discriminate].
  destruct (parity_of _); [| discriminate].
  destruct (data_bits_of _); [| discriminate].
  destruct (status =? ARM_DRIVER_OK); [| discriminate].
  intros _. cbn. auto.
Qed.

Lemma SetLineCoding_result status line_coding s :
  fst (USBD_CDC0_ACM_SetLineCoding status line_coding s) =
    match stop_bits_of (bCharFormat line_coding),
          parity_of (bParityType line_coding),
          data_bits_of (bDataBits line_coding) with
    | Some _, Some _, Some _ => status =? ARM_DRIVER_OK
    | _, _, _ => false
    end.
Proof.
  unfold USBD_CDC0_ACM_SetLineCoding.
  destruct (stop_bits_of _); [| reflexivity].
  destruct (parity_of _); [| reflexivity].
  destruct (data_bits_of _); [| reflexivity].
  destruct (status =? ARM_DRIVER_OK); reflexivity.
Qed.

End LineCoding.

(** C10. Whenever [USBD_CDC0_ACM_SetLineCoding] returns false, for any
    requested record and any driver answer, [cdc_acm_line_coding],
    [uart_rx_cnt] and [usb_tx_cnt] are what they were before the call. *)
Theorem SetLineCoding_rejection_keeps_state (status : Z)
    (line_coding : CDC_LINE_CODING) (s : state) :
  fst (USBD_CDC0_ACM_SetLineCoding status line_coding s) = false ->
  let s' := snd (USBD_CDC0_ACM_SetLineCoding status line_coding s) in
  cdc_acm_line_coding s' = cdc_acm_line_coding s /\
  uart_rx_cnt s' = uart_rx_cnt s /\
  usb_tx_cnt s' = usb_tx_cnt s.
Proof.
  unfold USBD_CDC0_ACM_SetLineCoding.
  destruct (stop_bits_of _); [| cbn; auto].
  destruct (parity_of _); [| cbn; auto].
  destruct (data_bits_of _); [| cbn; auto].
  destruct (status =? ARM_DRIVER_OK); [discriminate | cbn; auto].
Qed.

(** A state in which 8N1 at 115200 baud was negotiated and some bytes
    were counted, and a request for nine data bits. *)
Definition negotiated_state : state :=
  set_usb_tx_cnt 700
    (set_uart_rx_cnt 1024
       (snd (USBD_CDC0_ACM_SetLineCoding ARM_DRIVER_OK
               (mkLineCoding 115200 0 0 8) initial_state))).
Definition nine_bits : CDC_LINE_CODING := mkLineCoding 9600 0 0 9.

Lemma SetLineCoding_rejection_keeps_state_witness :
  let s' :=
    snd (USBD_CDC0_ACM_SetLineCoding ARM_DRIVER_OK nine_bits
           negotiated_state) in
  cdc_acm_line_coding s' = mkLineCoding 115200 0 0 8 /\
  uart_rx_cnt s' = 1024 /\ usb_tx_cnt s' = 700.
Proof.
  apply (SetLineCoding_rejection_keeps_state ARM_DRIVER_OK nine_bits
           negotiated_state).
  vm_compute. reflexivity.
Defined.

(** C9, as stated, fails: after a successful negotiation,
    [USBD_CDC0_ACM_Uninitialize] leaves the negotiated record in
    [cdc_acm_line_coding]. *)
Lemma Uninitialize_keeps_negotiated_coding :
  cdc_acm_line_coding (USBD_CDC0_ACM_Uninitialize true negotiated_state)
    = mkLineCoding 115200 0 0 8 /\
  cdc_acm_line_coding (USBD_CDC0_ACM_Uninitialize true negotiated_state)
    <> mkLineCoding 0 0 0 0.
Proof. split; [reflexivity | discriminate]. Qed.

(** C9, amended. [USBD_CDC0_ACM_Uninitialize] does not write
    [cdc_acm_line_coding]: whether or not the thread could be terminated,
    the record, the two counters and everything but the thread id and the
    driver calls are as before; it aborts the reception, powers the driver
    off and uninitializes it. The record is all zero by its initializer
    only, until the first successful [USBD_CDC0_ACM_SetLineCoding]. *)
Theorem Uninitialize_keeps_line_coding (terminated : bool) (s : state) :
  let s' := USBD_CDC0_ACM_Uninitialize terminated s in
  cdc_acm_line_coding s' = cdc_acm_line_coding s /\
  uart_rx_cnt s' = uart_rx_cnt s /\
  usb_tx_cnt s' = usb_tx_cnt s /\
  usart s' =
    usart s ++ [Control ARM_USART_ABORT_RECEIVE 0;
                PowerControl ARM_POWER_OFF; Uninitialize] /\
  cdc_acm_line_coding initial_state = mkLineCoding 0 0 0 0.
Proof.
  destruct terminated; cbn; rewrite <- !app_assoc; repeat split.
Qed.

(** * Further properties of the module *)

(** ** Which command touches what *)

Section CommandFrame.

Variable e : cmd_env.

Lemma strncmp_agrees n s1 s2 :
  firstn n (cstr s1) = firstn n (cstr s2) -> (strncmp s1 s2 n =? 0) = true.
Proof.
  intros H. apply Z.eqb_eq. now rewrite strncmp_zero_iff.
Qed.


(** The branch taken by a line that begins with [AT+LCD]. *)
Lemma dispatch_LCD buf s :
  firstn 6 (cstr buf) = str "AT+LCD" ->
  process_AT_command e buf s =
    format_reply
      (str "LCD string set to: " ++ cstr (skipn 6 buf) ++ [CR; LF])
      (storeLCDString (skipn 6 buf) s).
Proof.
  intros H. unfold process_AT_command.
  rewrite (strncmp_differs 6 buf (str "AT+LED"))
    by (rewrite H; vm_compute; discriminate).
  rewrite (strncmp_agrees 6 buf (str "AT+LCD=")) by exact H.
  reflexivity.
Qed.

Lemma process_AT_command_frame buf s :
  let s' := process_AT_command e buf s in
  usb_receive_buffer s' = usb_receive_buffer s /\
  uart_rx_cnt s' = uart_rx_cnt s /\
  usb_tx_cnt s' = usb_tx_cnt s /\
  cdc_acm_bridge_tid s' = cdc_acm_bridge_tid s /\
  cdc_acm_line_coding s' = cdc_acm_line_coding s /\
  cmd_buffer s' = cmd_buffer s /\
  cmd_buffer_cnt s' = cmd_buffer_cnt s.
Proof.
  unfold process_AT_command.
  destruct (strncmp buf (str "AT+LED") 6 =? 0).
  { destruct ((atoi (skipn 6 buf) >=? 1) && (atoi (skipn 6 buf) <=? 8));
      repeat split. }
  destruct (strncmp buf (str "AT+LCD=") 6 =? 0); [repeat split |].
  destruct (strncmp buf (str "AT+BUTTON") 9 =? 0); [repeat split |].
  destruct (strncmp buf (str "AT+POT") 6 =? 0); repeat split.
Qed.

End CommandFrame.

(** X1. Whatever the line, a dispatch leaves the two counters, the line
    coding, the thread id, the USB receive buffer, the line buffer and its
    cursor as they were. *)
Theorem dispatch_keeps_bridge_variables (e : cmd_env) (buf : list Z)
    (s : state) :
  let s' := process_AT_command e buf s in
  usb_receive_buffer s' = usb_receive_buffer s /\
  uart_rx_cnt s' = uart_rx_cnt s /\
  usb_tx_cnt s' = usb_tx_cnt s /\
  cdc_acm_bridge_tid s' = cdc_acm_bridge_tid s /\
  cdc_acm_line_coding s' = cdc_acm_line_coding s /\
  cmd_buffer s' = cmd_buffer s /\
  cmd_buffer_cnt s' = cmd_buffer_cnt s.
Proof. apply process_AT_command_frame. Qed.



(** X3. [storedLCDString] changes only for a line that begins with
    [AT+LCD]. *)
Theorem stored_string_changes_only_for_LCD (e : cmd_env) (buf : list Z)
    (s : state) :
  firstn 6 (cstr buf) <> str "AT+LCD" ->
  storedLCDString (process_AT_command e buf s) = storedLCDString s.
Proof.
  intros H. unfold process_AT_command.
  rewrite (strncmp_differs 6 buf (str "AT+LCD=")) by exact H.
  destruct (strncmp buf (str "AT+LED") 6 =? 0).
  { destruct ((atoi (skipn 6 buf) >=? 1) && (atoi (skipn 6 buf) <=? 8));
      reflexivity. }
  destruct (strncmp buf (str "AT+BUTTON") 9 =? 0); [reflexivity |].
  destruct (strncmp buf (str "AT+POT") 6 =? 0); reflexivity.
Qed.

Lemma stored_string_changes_only_for_LCD_witness :
  storedLCDString
    (process_AT_command quiet_env (c_string "AT+BUTTON") initial_state)
  = storedLCDString initial_state.
Proof.
  apply stored_string_changes_only_for_LCD. vm_compute. discriminate.
Defined.

(** X4. Nothing is handed to the UART transmitter unless the line begins
    with [AT+BUTTON] or [AT+POT]: for every other line, the [AT+LED] and
    [AT+LCD] commands included, the list of driver calls is unchanged. *)
Theorem nothing_sent_unless_BUTTON_or_POT (e : cmd_env) (buf : list Z)
    (s : state) :
  firstn 9 (cstr buf) <> str "AT+BUTTON" ->
  firstn 6 (cstr buf) <> str "AT+POT" ->
  usart (process_AT_command e buf s) = usart s.
Proof.
  intros Hbutton Hpot. unfold process_AT_command.
  rewrite (strncmp_differs 9 buf (str "AT+BUTTON")) by exact Hbutton.
  rewrite (strncmp_differs 6 buf (str "AT+POT")) by exact Hpot.
  destruct (strncmp buf (str "AT+LED") 6 =? 0).
  { destruct ((atoi (skipn 6 buf) >=? 1) && (atoi (skipn 6 buf) <=? 8));
      reflexivity. }
  destruct (strncmp buf (str "AT+LCD=") 6 =? 0); reflexivity.
Qed.

Lemma nothing_sent_unless_BUTTON_or_POT_witness :
  usart (process_AT_command quiet_env (c_string "AT+LED3") initial_state)
  = usart initial_state.
Proof.
  apply nothing_sent_unless_BUTTON_or_POT; vm_compute; discriminate.
Defined.

(** ** The LED command for every value *)

Section StoreFacts.

Lemma length_store dst : forall i v,
  List.length (store dst i v) = List.length dst.
Proof.
  induction dst as [| c r IH]; intros [| i] v; cbn; auto.
Qed.

Lemma nth_store_eq dst : forall i v d,
  (i < List.length dst)%nat -> nth i (store dst i v) d = v.
Proof.
  induction dst as [| c r IH]; intros [| i] v d H; cbn in *;
    first [lia | reflexivity | apply IH; lia].
Qed.

Lemma nth_store_ne dst : forall i j v d,
  i <> j -> nth j (store dst i v) d = nth j dst d.
Proof.
  induction dst as [| c r IH]; intros [| i] [| j] v d H; cbn;
    try reflexivity; try congruence.
  apply IH. congruence.
Qed.

(** The loop of [intToBinaryString] entered at [i1 - 1]: position [j]
    below [i1] receives bit [i1 - 1 - j] of [num], the others are kept. *)
Lemma intToBinaryString_from_spec i1 : forall num bs,
  (i1 <= List.length bs)%nat ->
  List.length (intToBinaryString_from i1 num bs) = List.length bs /\
  forall j,
    nth j (intToBinaryString_from i1 num bs) 0 =
      if (j <? i1)%nat
      then Z.b2z (Z.testbit num (Z.of_nat (i1 - 1 - j))) + 48
      else nth j bs 0.
Proof.
  induction i1 as [| i IH]; intros num bs Hlen.
  - split; [reflexivity |]. intros j. reflexivity.
  - cbn [intToBinaryString_from].
    destruct (IH (Z.shiftr num 1) (store bs i (Z.land num 1 + 48)))
      as [Hl Hn]; [rewrite length_store; lia |].
    split; [now rewrite Hl, length_store |].
    intros j. rewrite Hn.
    destruct (Nat.ltb_spec j i) as [Hji | Hji].
    + destruct (Nat.ltb_spec j (S i)) as [_ | ?]; [| lia].
      rewrite Z.shiftr_spec by lia. do 3 f_equal. lia.
    + destruct (Nat.ltb_spec j (S i)) as [Hjs | Hjs].
      * assert (j = i) by lia. subst j.
        rewrite nth_store_eq by lia.
        replace (S i - 1 - i)%nat with 0%nat by lia.
        change (Z.of_nat 0) with 0. rewrite Z.bit0_mod.
        change 1 with (Z.ones 1) at 1. rewrite Z.land_ones by lia.
        reflexivity.
      * apply nth_store_ne. lia.
Qed.

End StoreFacts.

(** X5. [intToBinaryString (num, binaryString, size)] on an array of more
    than [size] elements keeps the length of the array, writes at every
    index [j < size] the character ['0'] or ['1'] of bit [size - 1 - j] of
    [num] (most significant of the [size] low bits first), a NUL at index
    [size], and keeps the elements behind it. *)
Theorem intToBinaryString_writes_bits_msb_first (num : Z)
    (binaryString : list Z) (size : nat) :
  (size < List.length binaryString)%nat ->
  let r := intToBinaryString num binaryString size in
  List.length r = List.length binaryString /\
  (forall j, (j < size)%nat ->
     nth j r 0 = Z.b2z (Z.testbit num (Z.of_nat (size - 1 - j))) + 48) /\
  nth size r 0 = 0 /\
  (forall j, (size < j)%nat -> nth j r 0 = nth j binaryString 0).
Proof.
  intros Hlen r. unfold r, intToBinaryString.
  destruct (intToBinaryString_from_spec size num binaryString) as [Hl Hn];
    [lia |].
  repeat split.
  - now rewrite length_store.
  - intros j Hj. rewrite nth_store_ne by lia. rewrite Hn.
    destruct (Nat.ltb_spec j size); [reflexivity | lia].
  - apply nth_store_eq. lia.
  - intros j Hj. rewrite nth_store_ne by lia. rewrite Hn.
    destruct (Nat.ltb_spec j size); [lia | reflexivity].
Qed.

Lemma intToBinaryString_writes_bits_msb_first_witness :
  let r := intToBinaryString 6 [1; 2; 3; 4; 5; 6] 4 in
  List.length r = 6%nat /\ nth 4 r 0 = 0 /\ nth 5 r 0 = 6.
Proof.
  destruct (intToBinaryString_writes_bits_msb_first 6 [1; 2; 3; 4; 5; 6] 4)
    as (Hl & _ & Hz & Hk).
  - cbn. lia.
  - split; [exact Hl | split; [exact Hz | apply (Hk 5%nat); lia]].
Defined.

Section LedValues.

Variable e : cmd_env.



End LedValues.





(** ** The replies and the stored string *)

Section Strings.

Lemma cstr_nonzero l : Forall (fun c => c <> 0) (cstr l).
Proof.
  induction l as [| c r IH]; cbn; [constructor |].
  destruct (Z.eqb_spec c 0); constructor; assumption.
Qed.

Lemma Forall_firstn_nonzero (l : list Z) :
  Forall (fun c => c <> 0) l ->
  forall n, Forall (fun c => c <> 0) (firstn n l).
Proof.
  induction 1 as [| c l Hc _ IH]; intros [| n]; cbn; constructor; auto.
Qed.

Lemma cstr_app_zero t r :
  Forall (fun c => c <> 0) t -> cstr (t ++ 0 :: r) = t.
Proof.
  induction 1 as [| c t Hc _ IH]; cbn; [reflexivity |].
  destruct (Z.eqb_spec c 0); [contradiction | now rewrite IH].
Qed.

Lemma store_behind prefix d r v :
  store (prefix ++ d :: r) (List.length prefix) v = prefix ++ v :: r.
Proof.
  induction prefix as [| c p IH]; cbn; [reflexivity | now rewrite IH].
Qed.

Lemma cstr_skipn n : forall buf,
  List.length (firstn n (cstr buf)) = n ->
  cstr (skipn n buf) = skipn n (cstr buf).
Proof.
  induction n as [| n IH]; intros buf H; [reflexivity |].
  destruct buf as [| c r]; [discriminate |].
  cbn [cstr] in *. destruct (Z.eqb_spec c 0); [discriminate |].
  cbn [firstn List.length skipn] in *. apply IH. congruence.
Qed.

(** What [strncpy] then the terminator leave in a 50-byte array. *)
Lemma stored_text dst src :
  List.length dst = 50%nat ->
  let r := store (strncpy dst src 49) 49 0 in
  List.length r = 50%nat /\ nth 49 r 1 = 0 /\ cstr r = firstn 49 (cstr src).
Proof.
  intros Hdst r. unfold r, strncpy.
  set (t := firstn 49 (cstr src)).
  assert (Ht : (List.length t <= 49)%nat) by apply firstn_le_length.
  assert (Hnz : Forall (fun c => c <> 0) t)
    by (apply Forall_firstn_nonzero, cstr_nonzero).
  destruct (skipn 49 dst) as [| d rest] eqn:Hskip.
  { apply (f_equal (@List.length Z)) in Hskip.
    rewrite length_skipn, Hdst in Hskip. discriminate. }
  assert (Hrest : rest = []).
  { apply (f_equal (@List.length Z)) in Hskip.
    rewrite length_skipn, Hdst in Hskip. cbn in Hskip.
    destruct rest; [reflexivity | discriminate]. }
  subst rest.
  set (pad := repeat 0 (49 - List.length t)).
  assert (Hp : List.length (t ++ pad) = 49%nat)
    by (unfold pad; rewrite length_app, repeat_length; lia).
  assert (Hst : store (t ++ pad ++ [d]) 49 0 = (t ++ pad) ++ [0])
    by (rewrite app_assoc, <- Hp; apply store_behind).
  rewrite Hst. repeat split.
  - rewrite length_app, Hp. reflexivity.
  - rewrite app_nth2 by lia. rewrite Hp. reflexivity.
  - rewrite <- app_assoc. unfold pad.
    destruct (49 - List.length t)%nat; cbn [repeat app];
      now apply cstr_app_zero.
Qed.

(** The bytes [send_reply] hands over after [format_reply]: the text, cut
    at 511 characters by [snprintf]. *)
Lemma formatted_reply_sent text s :
  Forall (fun c => c <> 0) text ->
  usart (send_reply (format_reply text s)) =
    usart s ++ [Send (firstn 511 text)].
Proof.
  intros Hnz. unfold send_reply, format_reply, ptrUART, set_uart_tx_buf.
  cbn [usart uart_tx_buf]. do 3 f_equal.
  unfold snprintf, strlen. change (512 - 1)%nat with 511%nat.
  rewrite <- app_assoc. cbn [app].
  rewrite cstr_app_zero by now apply Forall_firstn_nonzero.
  rewrite Nat2Z.id, firstn_app, firstn_all, Nat.sub_diag.
  cbn [firstn]. apply app_nil_r.
Qed.

Lemma str_digits_nonzero d :
  Forall (fun c => c <> 0) (str (NilEmpty.string_of_uint d)).
Proof.
  induction d; cbn; constructor; solve [discriminate | assumption].
Qed.

Lemma decimal_nonzero z : Forall (fun c => c <> 0) (decimal z).
Proof.
  unfold decimal. destruct (Z.to_int z) as [d | d]; cbn.
  - destruct d; try apply str_digits_nonzero.
    repeat constructor. discriminate.
  - constructor; [discriminate |].
    destruct d; try apply str_digits_nonzero.
    repeat constructor. discriminate.
Qed.

Lemma button_message_nonzero e :
  Forall (fun c => c <> 0) (button_message e).
Proof.
  unfold button_message.
  destruct (pressed e SW1_GPIO_Port SW1_Pin),
           (pressed e SW2_GPIO_Port SW2_Pin),
           (pressed e SW3_GPIO_Port SW3_Pin),
           (pressed e SW4_GPIO_Port SW4_Pin); vm_compute;
    repeat (constructor; [discriminate |]); constructor.
Qed.

Lemma button_message_short e : (List.length (button_message e) <= 43)%nat.
Proof.
  unfold button_message.
  destruct (pressed e SW1_GPIO_Port SW1_Pin),
           (pressed e SW2_GPIO_Port SW2_Pin),
           (pressed e SW3_GPIO_Port SW3_Pin),
           (pressed e SW4_GPIO_Port SW4_Pin); vm_compute; lia.
Qed.

End Strings.

(** X8. For every line that begins with [AT+LCD] (the seventh character,
    ['='] or any other, is not looked at), with [storedLCDString] the 50
    bytes of its declaration: the stored string becomes the text of the
    line from its seventh character on, cut to 49 characters; the array
    keeps its 50 bytes and ends with a NUL. *)
Theorem LCD_stores_text_from_seventh_character (e : cmd_env) (buf : list Z)
    (s : state) :
  firstn 6 (cstr buf) = str "AT+LCD" ->
  List.length (storedLCDString s) = 50%nat ->
  let s' := process_AT_command e buf s in
  cstr (storedLCDString s') = firstn 49 (skipn 6 (cstr buf)) /\
  List.length (storedLCDString s') = 50%nat /\
  nth 49 (storedLCDString s') 1 = 0.
Proof.
  intros Hprefix Hlen. cbv zeta.
  rewrite dispatch_LCD by exact Hprefix.
  cbn [format_reply set_uart_tx_buf storeLCDString set_storedLCDString
       storedLCDString].
  destruct (stored_text (storedLCDString s) (skipn 6 buf) Hlen)
    as (Hl & Hz & Hc).
  repeat split; try assumption.
  rewrite Hc. f_equal. apply cstr_skipn.
  now rewrite Hprefix.
Qed.

Definition long_LCD_line : list Z :=
  str "AT+LCD=" ++ repeat 120 60 ++ [0].

Lemma LCD_stores_text_from_seventh_character_witness :
  let s' := process_AT_command quiet_env long_LCD_line initial_state in
  cstr (storedLCDString s') = 61 :: repeat 120 48 /\
  List.length (storedLCDString s') = 50%nat /\
  nth 49 (storedLCDString s') 1 = 0.
Proof.
  apply (LCD_stores_text_from_seventh_character quiet_env long_LCD_line
           initial_state); reflexivity.
Defined.

Section ButtonReply.

Lemma prefix_of_longer (n m : nat) (l p : list Z) :
  (n <= m)%nat -> firstn m l = p -> firstn n l = firstn n p.
Proof.
  intros Hnm <-. rewrite firstn_firstn. now rewrite Nat.min_l.
Qed.

Lemma dispatch_BUTTON e buf s :
  firstn 9 (cstr buf) = str "AT+BUTTON" ->
  process_AT_command e buf s =
    send_reply (format_reply (button_message e ++ [CR; LF]) s).
Proof.
  intros H. unfold process_AT_command.
  pose proof (prefix_of_longer 6 9 _ _ ltac:(lia) H) as H6.
  rewrite (strncmp_differs 6 buf (str "AT+LED"))
    by (rewrite H6; vm_compute; discriminate).
  rewrite (strncmp_differs 6 buf (str "AT+LCD="))
    by (rewrite H6; vm_compute; discriminate).
  rewrite (strncmp_agrees 9 buf (str "AT+BUTTON")) by exact H.
  reflexivity.
Qed.

Lemma dispatch_POT e buf s :
  firstn 6 (cstr buf) = str "AT+POT" ->
  process_AT_command e buf s =
    send_reply
      (format_reply
         (str "Potentiometer value: " ++ decimal (ReadPot e) ++ [CR; LF]) s).
Proof.
  intros H. unfold process_AT_command.
  rewrite (strncmp_differs 6 buf (str "AT+LED"))
    by (rewrite H; vm_compute; discriminate).
  rewrite (strncmp_differs 6 buf (str "AT+LCD="))
    by (rewrite H; vm_compute; discriminate).
  rewrite (strncmp_differs 9 buf (str "AT+BUTTON")).
  - rewrite (strncmp_agrees 6 buf (str "AT+POT")) by exact H. reflexivity.
  - intros H9. apply (prefix_of_longer 6 9 _ _ ltac:(lia)) in H9.
    rewrite H in H9. vm_compute in H9. discriminate.
Qed.

End ButtonReply.

(** X9. For every line that begins with [AT+BUTTON], one [Send] is added
    to the driver calls and its bytes are the message chosen from the four
    switch levels, followed by CR LF, whatever [uart_tx_buf] held. *)
Theorem BUTTON_sends_the_message (e : cmd_env) (buf : list Z) (s : state) :
  firstn 9 (cstr buf) = str "AT+BUTTON" ->
  usart (process_AT_command e buf s) =
    usart s ++ [Send (button_message e ++ [CR; LF])].
Proof.
  intros H. rewrite dispatch_BUTTON by exact H.
  rewrite formatted_reply_sent.
  - rewrite firstn_all2; [reflexivity |].
    rewrite length_app. pose proof (button_message_short e). cbn. lia.
  - apply Forall_app. split; [apply button_message_nonzero |].
    repeat constructor; discriminate.
Qed.

Definition two_pressed : cmd_env :=
  mkCmdEnv (fun _ => 0)
    (fun q => match q with GPIOF => Z.lor SW1_Pin SW3_Pin | _ => 0 end) 0.

Lemma BUTTON_sends_the_message_witness :
  usart (process_AT_command two_pressed (c_string "AT+BUTTON") initial_state) =
    [Send (str "Button 2 and Button 4 are pressed" ++ [CR; LF])].
Proof.
  apply (BUTTON_sends_the_message two_pressed (c_string "AT+BUTTON")
           initial_state).
  reflexivity.
Defined.

(** X10. The message of [AT+BUTTON] tells the four switches apart: two
    readings give the same message only when each of the four switches is
    pressed in both or in neither, so each of the sixteen combinations has
    a message of its own. *)
Theorem button_message_identifies_pressed_set (e1 e2 : cmd_env) :
  button_message e1 = button_message e2 ->
  pressed e1 SW1_GPIO_Port SW1_Pin = pressed e2 SW1_GPIO_Port SW1_Pin /\
  pressed e1 SW2_GPIO_Port SW2_Pin = pressed e2 SW2_GPIO_Port SW2_Pin /\
  pressed e1 SW3_GPIO_Port SW3_Pin = pressed e2 SW3_GPIO_Port SW3_Pin /\
  pressed e1 SW4_GPIO_Port SW4_Pin = pressed e2 SW4_GPIO_Port SW4_Pin.
Proof.
  unfold button_message.
  destruct (pressed e1 SW1_GPIO_Port SW1_Pin),
           (pressed e1 SW2_GPIO_Port SW2_Pin),
           (pressed e1 SW3_GPIO_Port SW3_Pin),
           (pressed e1 SW4_GPIO_Port SW4_Pin),
           (pressed e2 SW1_GPIO_Port SW1_Pin),
           (pressed e2 SW2_GPIO_Port SW2_Pin),
           (pressed e2 SW3_GPIO_Port SW3_Pin),
           (pressed e2 SW4_GPIO_Port SW4_Pin);
    cbn [andb]; intros H;
    first [repeat split; reflexivity | vm_compute in H; discriminate H].
Qed.

Definition two_pressed_too : cmd_env :=
  mkCmdEnv (fun _ => 49)
    (fun q => match q with
              | GPIOF => Z.lor (Z.lor SW1_Pin SW3_Pin) LED1_Pin
              | _ => 7
              end) 9.

Lemma button_message_identifies_pressed_set_witness :
  pressed two_pressed SW1_GPIO_Port SW1_Pin
    = pressed two_pressed_too SW1_GPIO_Port SW1_Pin /\
  pressed two_pressed SW2_GPIO_Port SW2_Pin
    = pressed two_pressed_too SW2_GPIO_Port SW2_Pin.
Proof.
  destruct (button_message_identifies_pressed_set two_pressed two_pressed_too)
    as (H1 & H2 & _); [reflexivity |].
  split; [exact H1 | exact H2].
Defined.

(** X11. For every line that begins with [AT+POT], one [Send] is added to
    the driver calls; its bytes are ["Potentiometer value: "], the decimal
    digits of the converter's value stored as an [int32_t] (a value of
    [2 ^ 31] or more is printed negative), and CR LF, within the 511
    characters [snprintf] may write. *)
Theorem POT_sends_the_value (e : cmd_env) (buf : list Z) (s : state) :
  firstn 6 (cstr buf) = str "AT+POT" ->
  usart (process_AT_command e buf s) =
    usart s ++
    [Send (firstn 511
             (str "Potentiometer value: "
                ++ decimal (int32 (uint32 (adc_value e))) ++ [CR; LF]))].
Proof.
  intros H. rewrite dispatch_POT by exact H.
  rewrite formatted_reply_sent; [reflexivity |].
  apply Forall_app. split.
  - vm_compute. repeat (constructor; [discriminate |]). constructor.
  - apply Forall_app. split; [apply decimal_nonzero |].
    repeat constructor; discriminate.
Qed.

Definition high_sample : cmd_env :=
  mkCmdEnv (fun _ => 0) (fun _ => 0) (2 ^ 32 - 5).

Lemma POT_sends_the_value_witness :
  usart (process_AT_command high_sample (c_string "AT+POT") initial_state) =
    [Send (str "Potentiometer value: -5" ++ [CR; LF])].
Proof.
  apply (POT_sends_the_value high_sample (c_string "AT+POT") initial_state).
  reflexivity.
Defined.

(** ** Accumulation of lines *)

(** The rest of a computation once the callback's loop has returned. *)
Definition and_then (o : outcome) (k : state -> outcome) : outcome :=
  match o with
  | Returned s => k s
  | OutOfBounds index s => OutOfBounds index s
  end.

Section Accumulation.

Variable e : cmd_env.

Lemma receive_loop_app a : forall b s,
  receive_loop e (a ++ b) s = and_then (receive_loop e a s) (receive_loop e b).
Proof.
  induction a as [| x a IH]; intros b s; [reflexivity |].
  cbn [app receive_loop].
  destruct ((0 <=? cmd_buffer_cnt s) && (cmd_buffer_cnt s <? CMD_BUFFER_SIZE));
    [| reflexivity].
  destruct (x =? CR); apply IH.
Qed.

Lemma store_middle (l : list Z) (i : nat) (v : Z) :
  (i < List.length l)%nat ->
  store l i v = firstn i l ++ v :: skipn (S i) l.
Proof.
  revert i. induction l as [| c r IH]; intros [| i] H; cbn in *;
    first [lia | reflexivity | rewrite IH by lia; reflexivity].
Qed.

(** Bytes other than the terminator, while they fit, go to the line buffer
    at the cursor and move the cursor; nothing else changes. *)
Lemma receive_loop_accumulates line : forall s,
  Forall (fun b => b <> CR) line ->
  0 <= cmd_buffer_cnt s ->
  cmd_buffer_cnt s + Z.of_nat (List.length line) <= CMD_BUFFER_SIZE ->
  List.length (cmd_buffer s) = Z.to_nat CMD_BUFFER_SIZE ->
  let c := Z.to_nat (cmd_buffer_cnt s) in
  receive_loop e line s =
    Returned
      (set_cmd_buffer
         (firstn c (cmd_buffer s) ++ line
            ++ skipn (c + List.length line) (cmd_buffer s))
         (set_cmd_buffer_cnt
            (cmd_buffer_cnt s + Z.of_nat (List.length line)) s)).
Proof.
  induction line as [| b line IH]; intros s Hline Hcnt Hfit Hlen c.
  - cbn [receive_loop List.length app Z.of_nat].
    rewrite Nat.add_0_r, firstn_skipn, Z.add_0_r. now destruct s.
  - inversion Hline as [| ? ? Hb Hrest]; subst.
    cbn [List.length] in Hfit. rewrite Nat2Z.inj_succ in Hfit.
    unfold CMD_BUFFER_SIZE in *.
    cbn [receive_loop].
    assert (Hin : (0 <=? cmd_buffer_cnt s) && (cmd_buffer_cnt s <? 64) = true).
    { apply andb_true_intro. split; [apply Z.leb_le | apply Z.ltb_lt]; lia. }
    unfold CMD_BUFFER_SIZE. rewrite Hin.
    destruct (Z.eqb_spec b CR) as [-> | _]; [congruence |].
    rewrite IH; clear IH;
      cbn [cmd_buffer cmd_buffer_cnt set_cmd_buffer set_cmd_buffer_cnt];
      try assumption; try lia;
      try (rewrite length_store; assumption).
    f_equal. unfold set_cmd_buffer, set_cmd_buffer_cnt.
    cbn [usb_receive_buffer uart_tx_buf uart_rx_cnt usb_tx_cnt
         cdc_acm_bridge_tid cdc_acm_line_coding cmd_buffer cmd_buffer_cnt
         storedLCDString gpio usart List.length].
    f_equal; [| lia].
    fold c. rewrite store_middle by lia.
    replace (Z.to_nat (cmd_buffer_cnt s + 1)) with (S c) by lia.
    assert (Hc : (c < List.length (cmd_buffer s))%nat) by lia.
    rewrite firstn_app, firstn_firstn, Nat.min_r by lia.
    rewrite length_firstn, Nat.min_l by lia.
    replace (S c - c)%nat with 1%nat by lia. cbn [firstn].
    rewrite <- app_assoc. cbn [app]. do 3 f_equal.
    rewrite skipn_app, length_firstn, Nat.min_l by lia.
    rewrite skipn_all2 by (rewrite length_firstn; lia).
    replace (S c + List.length line - c)%nat
      with (S (List.length line)) by lia.
    change (skipn (S (List.length line))
              (b :: skipn (S c) (cmd_buffer s)))
      with (skipn (List.length line) (skipn (S c) (cmd_buffer s))).
    cbn [app]. rewrite skipn_skipn. f_equal. lia.
Qed.

(** The loop keeps the line buffer's length and the cursor inside
    [0, CMD_BUFFER_SIZE]; when it faults, the cursor stood at
    [CMD_BUFFER_SIZE]. *)
Lemma receive_loop_bounds bytes : forall s,
  List.length (cmd_buffer s) = Z.to_nat CMD_BUFFER_SIZE ->
  0 <= cmd_buffer_cnt s <= CMD_BUFFER_SIZE ->
  match receive_loop e bytes s with
  | Returned s' =>
      List.length (cmd_buffer s') = Z.to_nat CMD_BUFFER_SIZE /\
      0 <= cmd_buffer_cnt s' <= CMD_BUFFER_SIZE
  | OutOfBounds index s' =>
      index = CMD_BUFFER_SIZE /\ cmd_buffer_cnt s' = CMD_BUFFER_SIZE /\
      List.length (cmd_buffer s') = Z.to_nat CMD_BUFFER_SIZE
  end.
Proof.
  induction bytes as [| b bytes IH]; intros s Hlen Hcnt; [now split |].
  cbn [receive_loop].
  destruct ((0 <=? cmd_buffer_cnt s) && (cmd_buffer_cnt s <? CMD_BUFFER_SIZE))
    eqn:Hin.
  - apply andb_prop in Hin. destruct Hin as [Hlo Hhi].
    apply Z.ltb_lt in Hhi.
    destruct (b =? CR); apply IH.
    + match goal with
      | |- context [process_AT_command e ?b ?s1] =>
          destruct (process_AT_command_frame e b s1)
            as (_ & _ & _ & _ & _ & Hbuf & _)
      end.
      unfold set_cmd_buffer_cnt at 1. cbn [cmd_buffer]. rewrite Hbuf.
      cbn [cmd_buffer set_cmd_buffer set_cmd_buffer_cnt].
      now rewrite length_store.
    + cbn. unfold CMD_BUFFER_SIZE. lia.
    + cbn [cmd_buffer set_cmd_buffer set_cmd_buffer_cnt].
      now rewrite length_store.
    + cbn [cmd_buffer_cnt set_cmd_buffer set_cmd_buffer_cnt]. lia.
  - assert (cmd_buffer_cnt s = CMD_BUFFER_SIZE).
    { destruct (Z.leb_spec 0 (cmd_buffer_cnt s)); [| lia].
      destruct (Z.ltb_spec (cmd_buffer_cnt s) CMD_BUFFER_SIZE);
        [discriminate | lia]. }
    auto.
Qed.

End Accumulation.

(** The state reached, with a variable rewritten. *)
Definition map_outcome (f : state -> state) (o : outcome) : outcome :=
  match o with
  | Returned s => Returned (f s)
  | OutOfBounds index s => OutOfBounds index (f s)
  end.

Section Packets.

Variable e : cmd_env.

(** The interpreter does not look at the USB receive buffer. *)
Lemma process_AT_command_urb buf v s :
  process_AT_command e buf (set_usb_receive_buffer v s) =
    set_usb_receive_buffer v (process_AT_command e buf s).
Proof.
  unfold process_AT_command.
  destruct (strncmp buf (str "AT+LED") 6 =? 0).
  { destruct ((atoi (skipn 6 buf) >=? 1) && (atoi (skipn 6 buf) <=? 8));
      reflexivity. }
  destruct (strncmp buf (str "AT+LCD=") 6 =? 0); [reflexivity |].
  destruct (strncmp buf (str "AT+BUTTON") 9 =? 0); [reflexivity |].
  destruct (strncmp buf (str "AT+POT") 6 =? 0); [reflexivity |].
  reflexivity.
Qed.

Lemma receive_loop_urb bytes : forall v s,
  receive_loop e bytes (set_usb_receive_buffer v s) =
    map_outcome (set_usb_receive_buffer v) (receive_loop e bytes s).
Proof.
  induction bytes as [| b bytes IH]; intros v s; [reflexivity |].
  cbn [receive_loop].
  change (cmd_buffer_cnt (set_usb_receive_buffer v s))
    with (cmd_buffer_cnt s).
  destruct ((0 <=? cmd_buffer_cnt s) && (cmd_buffer_cnt s <? CMD_BUFFER_SIZE));
    [| reflexivity].
  destruct (b =? CR).
  - rewrite <- IH. f_equal.
    match goal with
    | |- set_cmd_buffer_cnt 0 (process_AT_command e ?b1 ?s1) =
         set_usb_receive_buffer v
           (set_cmd_buffer_cnt 0 (process_AT_command e ?b2 ?s2)) =>
        change s1 with (set_usb_receive_buffer v s2);
        change b1 with b2
    end.
    rewrite process_AT_command_urb. reflexivity.
  - rewrite <- IH. reflexivity.
Qed.

Lemma forget_absorbs v o :
  map_outcome (set_usb_receive_buffer []) (map_outcome (set_usb_receive_buffer v) o)
  = map_outcome (set_usb_receive_buffer []) o.
Proof. destruct o; reflexivity. Qed.

(** The callback on a packet that fits the USB receive buffer. *)
Lemma DataReceived_packet pending s :
  pending <> [] ->
  Z.of_nat (List.length pending) <= USB_RECEIVE_BUFFER_SIZE ->
  USBD_CDC0_ACM_DataReceived e pending s =
    map_outcome
      (set_usb_receive_buffer
         (pending ++ skipn (List.length pending) (usb_receive_buffer s)))
      (receive_loop e pending s).
Proof.
  intros Hne Hlen.
  assert (Hgot : firstn (Z.to_nat USB_RECEIVE_BUFFER_SIZE) pending = pending)
    by (apply firstn_all2; lia).
  rewrite DataReceived_runs_loop; rewrite Hgot; [| assumption].
  apply receive_loop_urb.
Qed.

End Packets.

(** X12. A run of bytes delivered in two packets is processed as if it
    had come in one: for two non-empty packets that together fit the USB
    receive buffer, calling [USBD_CDC0_ACM_DataReceived] on the first and
    then on the second ends (returning, or writing behind the line buffer)
    as one call on their concatenation does, with the same state apart
    from the content of [usb_receive_buffer]. *)
Theorem split_packets_are_processed_as_one (e : cmd_env) (a b : list Z)
    (s : state) :
  a <> [] -> b <> [] ->
  Z.of_nat (List.length (a ++ b)) <= USB_RECEIVE_BUFFER_SIZE ->
  map_outcome (set_usb_receive_buffer [])
    (and_then (USBD_CDC0_ACM_DataReceived e a s)
       (USBD_CDC0_ACM_DataReceived e b))
  = map_outcome (set_usb_receive_buffer [])
      (USBD_CDC0_ACM_DataReceived e (a ++ b) s).
Proof.
  intros Ha Hb Hlen. rewrite length_app in Hlen.
  rewrite (DataReceived_packet e (a ++ b))
    by first [ destruct a; [congruence | discriminate]
             | rewrite length_app; lia ].
  rewrite (DataReceived_packet e a) by (assumption || lia).
  rewrite forget_absorbs, receive_loop_app.
  destruct (receive_loop e a s) as [s1 | index s1]; cbn [map_outcome and_then];
    [| reflexivity].
  rewrite (DataReceived_packet e b) by (assumption || lia).
  rewrite receive_loop_urb. now rewrite !forget_absorbs.
Qed.

Lemma split_packets_are_processed_as_one_witness :
  map_outcome (set_usb_receive_buffer [])
    (and_then
       (USBD_CDC0_ACM_DataReceived quiet_env (str "AT+L") initial_state)
       (USBD_CDC0_ACM_DataReceived quiet_env (str "ED5" ++ [CR])))
  = map_outcome (set_usb_receive_buffer [])
      (USBD_CDC0_ACM_DataReceived quiet_env (str "AT+L" ++ str "ED5" ++ [CR])
         initial_state).
Proof.
  apply (split_packets_are_processed_as_one quiet_env (str "AT+L")
           (str "ED5" ++ [CR]) initial_state).
  - discriminate.
  - discriminate.
  - vm_compute. discriminate.
Defined.

(** X13. As long as the line buffer has its 64 bytes and the cursor is
    between 0 and 64, a call to [USBD_CDC0_ACM_DataReceived], whatever the
    packet, either returns with the buffer still 64 bytes long and the
    cursor still between 0 and 64, or stops at a write behind the buffer;
    that write is always at index 64, with the cursor standing at 64. *)
Theorem DataReceived_cursor_bounds (e : cmd_env) (pending : list Z)
    (s : state) :
  List.length (cmd_buffer s) = Z.to_nat CMD_BUFFER_SIZE ->
  0 <= cmd_buffer_cnt s <= CMD_BUFFER_SIZE ->
  match USBD_CDC0_ACM_DataReceived e pending s with
  | Returned s' =>
      List.length (cmd_buffer s') = Z.to_nat CMD_BUFFER_SIZE /\
      0 <= cmd_buffer_cnt s' <= CMD_BUFFER_SIZE
  | OutOfBounds index s' =>
      index = CMD_BUFFER_SIZE /\ cmd_buffer_cnt s' = CMD_BUFFER_SIZE /\
      List.length (cmd_buffer s') = Z.to_nat CMD_BUFFER_SIZE
  end.
Proof.
  intros Hlen Hcnt.
  destruct (firstn (Z.to_nat USB_RECEIVE_BUFFER_SIZE) pending) as [| x got]
    eqn:Hgot.
  - unfold USBD_CDC0_ACM_DataReceived, USBD_CDC_ACM_ReadData.
    rewrite Hgot. cbn. auto.
  - rewrite DataReceived_runs_loop by (rewrite Hgot; discriminate).
    rewrite Hgot. apply receive_loop_bounds; assumption.
Qed.

Lemma DataReceived_cursor_bounds_witness :
  match
    USBD_CDC0_ACM_DataReceived quiet_env (repeat 66 70) initial_state
  with
  | Returned _ => True
  | OutOfBounds index s' =>
      index = CMD_BUFFER_SIZE /\ cmd_buffer_cnt s' = CMD_BUFFER_SIZE
  end.
Proof.
  pose proof (DataReceived_cursor_bounds quiet_env (repeat 66 70)
                initial_state) as H.
  destruct (USBD_CDC0_ACM_DataReceived quiet_env (repeat 66 70) initial_state).
  - exact I.
  - destruct H as (Hi & Hc & _); [reflexivity | vm_compute; split; discriminate |].
    split; assumption.
Defined.

(** X14. When a packet that fits the USB receive buffer ends with a
    carriage return and the callback returns, the cursor is back at 0: a
    new line starts at the beginning of the line buffer. *)
Theorem cursor_is_reset_after_terminator (e : cmd_env) (bytes : list Z)
    (s s' : state) :
  Z.of_nat (List.length (bytes ++ [CR])) <= USB_RECEIVE_BUFFER_SIZE ->
  USBD_CDC0_ACM_DataReceived e (bytes ++ [CR]) s = Returned s' ->
  cmd_buffer_cnt s' = 0.
Proof.
  intros Hlen.
  rewrite DataReceived_packet
    by first [assumption | destruct bytes; discriminate].
  rewrite receive_loop_app.
  destruct (receive_loop e bytes s) as [s1 | index s1];
    cbn [and_then map_outcome receive_loop]; [| discriminate].
  destruct ((0 <=? cmd_buffer_cnt s1) && (cmd_buffer_cnt s1 <? CMD_BUFFER_SIZE));
    cbn [map_outcome]; [| discriminate].
  change (CR =? CR) with true. cbv iota.
  intros H. injection H as <-. reflexivity.
Qed.

Lemma cursor_is_reset_after_terminator_witness :
  match
    USBD_CDC0_ACM_DataReceived quiet_env (str "AT+POT" ++ [CR])
      (set_cmd_buffer_cnt 3 initial_state)
  with
  | Returned s' => cmd_buffer_cnt s' = 0
  | OutOfBounds _ _ => False
  end.
Proof.
  destruct (USBD_CDC0_ACM_DataReceived quiet_env (str "AT+POT" ++ [CR])
              (set_cmd_buffer_cnt 3 initial_state)) as [s' | i s'] eqn:H.
  - apply (cursor_is_reset_after_terminator quiet_env (str "AT+POT")
             (set_cmd_buffer_cnt 3 initial_state) s').
    + vm_compute. discriminate.
    + exact H.
  - vm_compute in H. discriminate H.
Defined.

(** X15. A line of fewer than 64 characters, none of them CR or NUL,
    delivered with its carriage return in one packet while the cursor is
    at 0, reaches [process_AT_command] intact: the callback returns, the
    buffer it dispatches holds exactly the characters of the line followed
    by a NUL, and the dispatch starts from the state in which only the
    line buffer, its cursor and the USB receive buffer have changed. *)
Theorem short_line_reaches_dispatch (e : cmd_env) (line : list Z)
    (s : state) :
  Forall (fun b => b <> CR /\ b <> 0) line ->
  cmd_buffer_cnt s = 0 ->
  List.length (cmd_buffer s) = Z.to_nat CMD_BUFFER_SIZE ->
  Z.of_nat (List.length line) < CMD_BUFFER_SIZE ->
  let n := List.length line in
  let buf := line ++ 0 :: skipn (S n) (cmd_buffer s) in
  let urb := (line ++ [CR]) ++ skipn (S n) (usb_receive_buffer s) in
  cstr buf = line /\
  USBD_CDC0_ACM_DataReceived e (line ++ [CR]) s =
    Returned
      (set_cmd_buffer_cnt 0
         (process_AT_command e buf
            (set_cmd_buffer buf
               (set_cmd_buffer_cnt (Z.of_nat n + 1)
                  (set_usb_receive_buffer urb s))))).
Proof.
  intros Hline Hcnt Hlen Hfit n buf urb.
  unfold CMD_BUFFER_SIZE in *.
  assert (Hcr : Forall (fun b => b <> CR) line)
    by (eapply Forall_impl; [| exact Hline]; cbn; tauto).
  assert (Hnz : Forall (fun b => b <> 0) line)
    by (eapply Forall_impl; [| exact Hline]; cbn; tauto).
  split; [now apply cstr_app_zero |].
  rewrite DataReceived_runs_loop;
    rewrite firstn_all2
      by (rewrite length_app; unfold USB_RECEIVE_BUFFER_SIZE; cbn; lia);
    [| destruct line; discriminate].
  replace (List.length (line ++ [CR])) with (S n)
    by (rewrite length_app; cbn; lia).
  fold urb. set (s0 := set_usb_receive_buffer urb s).
  rewrite receive_loop_app.
  rewrite receive_loop_accumulates;
    try assumption; try (cbn; unfold CMD_BUFFER_SIZE; lia).
  cbn [and_then receive_loop].
  change (cmd_buffer_cnt s0) with (cmd_buffer_cnt s).
  change (cmd_buffer s0) with (cmd_buffer s).
  rewrite Hcnt. cbn [Z.to_nat Nat.add firstn app Z.add].
  cbn [cmd_buffer_cnt cmd_buffer set_cmd_buffer set_cmd_buffer_cnt].
  fold n.
  assert (Hin : (0 <=? Z.of_nat n) && (Z.of_nat n <? CMD_BUFFER_SIZE) = true).
  { apply andb_true_intro. unfold CMD_BUFFER_SIZE.
    split; [apply Z.leb_le | apply Z.ltb_lt]; lia. }
  rewrite Hin. change (CR =? CR) with true. cbv iota.
  assert (Hbuf : store (line ++ skipn n (cmd_buffer s)) (Z.to_nat (Z.of_nat n)) 0
                 = buf).
  { rewrite Nat2Z.id. unfold buf.
    destruct (skipn n (cmd_buffer s)) as [| d r] eqn:Hskip.
    - apply (f_equal (@List.length Z)) in Hskip.
      rewrite length_skipn, Hlen in Hskip. cbn in Hskip. lia.
    - replace (skipn (S n) (cmd_buffer s)) with r.
      + apply store_behind.
      + change (S n) with (1 + n)%nat.
        rewrite <- skipn_skipn, Hskip. reflexivity. }
  rewrite Hbuf. reflexivity.
Qed.

Lemma short_line_reaches_dispatch_witness :
  USBD_CDC0_ACM_DataReceived quiet_env (str "AT+LED2" ++ [CR]) initial_state =
    Returned
      (set_cmd_buffer_cnt 0
         (process_AT_command quiet_env (c_string "AT+LED2" ++ repeat 0 56)
            (set_cmd_buffer (c_string "AT+LED2" ++ repeat 0 56)
               (set_cmd_buffer_cnt 8
                  (set_usb_receive_buffer
                     (str "AT+LED2" ++ [CR] ++ repeat 0 504)
                     initial_state))))).
Proof.
  apply (short_line_reaches_dispatch quiet_env (str "AT+LED2") initial_state).
  - vm_compute. repeat (constructor; [split; discriminate |]). constructor.
  - reflexivity.
  - reflexivity.
  - vm_compute. reflexivity.
Defined.

(** ** More on the draining thread *)

Section DrainMore.

Lemma set_usb_tx_cnt_same s : set_usb_tx_cnt (usb_tx_cnt s) s = s.
Proof. now destruct s. Qed.

Lemma int32_mod_512 x : int32 x mod 512 = x mod 512.
Proof.
  destruct (int32_decompose x) as [k ->]. unfold modulus.
  replace (x + k * 2 ^ 32) with (x + (k * 2 ^ 23) * 512).
  - apply Z.mod_add. lia.
  - change (2 ^ 32) with (2 ^ 23 * 512). ring.
Qed.

(** The span seen again after [usb_tx_cnt] has advanced by [n]. *)
Lemma observed_span_advance e s n :
  observed_span e (set_usb_tx_cnt (int32 (usb_tx_cnt s + n)) s) =
    int32 (observed_span e s - n).
Proof.
  unfold observed_span, set_usb_tx_cnt. cbn [uart_rx_cnt usb_tx_cnt].
  set (a := int32 (uart_rx_cnt s + int32 (GetRxCount e))).
  destruct (int32_decompose (usb_tx_cnt s + n)) as [k1 ->].
  destruct (int32_decompose (a - usb_tx_cnt s)) as [k2 ->].
  apply int32_congr with (k := - k1 - k2). ring.
Qed.

(** The three ways a pass can go, by the span it computes. *)
Lemma drain_tick_cases e s :
  (drain_tick e s = (s, None)) \/
  (rx_busy e <> 0 /\ UART_BUFFER_SIZE <= observed_span e s /\
   drain_tick e s =
     (set_usb_tx_cnt (int32 (uart_rx_cnt s + int32 (GetRxCount e))) s, None)) \/
  (rx_busy e <> 0 /\ 0 < observed_span e s < UART_BUFFER_SIZE /\
   let offset := usb_tx_cnt s mod UART_BUFFER_SIZE in
   let len := Z.min (observed_span e s) (UART_BUFFER_SIZE - offset) in
   let n := USBD_CDC_ACM_WriteData e offset len in
   drain_tick e s =
     (if n >? 0 then set_usb_tx_cnt (int32 (usb_tx_cnt s + n)) s else s,
      Some (offset, len))).
Proof.
  destruct (Z.eq_dec (rx_busy e) 0) as [Hidle | Hbusy].
  { left. now apply drain_tick_not_busy. }
  destruct (Z_le_gt_dec UART_BUFFER_SIZE (observed_span e s)) as [Hfull | Hless].
  { right. left. repeat split; try assumption. now apply drain_tick_dump. }
  destruct (Z_lt_le_dec 0 (observed_span e s)) as [Hpos | Hnone].
  - right. right. repeat split; try assumption; try lia.
    apply drain_tick_offer; [assumption | lia].
  - left. now apply drain_tick_idle.
Qed.

End DrainMore.

(** X16. A pass of the thread writes no variable but [usb_tx_cnt]:
    whatever the driver and the USB stack answer, the state after the pass
    is the state before it with, at most, another [usb_tx_cnt]. *)
Theorem drain_tick_writes_only_usb_tx_cnt (e : tick_env) (s : state) :
  fst (drain_tick e s) =
    set_usb_tx_cnt (usb_tx_cnt (fst (drain_tick e s))) s.
Proof.
  destruct (drain_tick_cases e s) as [H | [(_ & _ & H) | (_ & _ & H)]];
    cbv zeta in H; rewrite H; cbn [fst].
  - symmetry. apply set_usb_tx_cnt_same.
  - reflexivity.
  - destruct (_ >? 0); [reflexivity |].
    symmetry. apply set_usb_tx_cnt_same.
Qed.

(** X17. Every run a pass hands to [USBD_CDC_ACM_WriteData] lies inside
    [uart_rx_buf]: for all values of the counters, wrapped ones included,
    and all answers of the driver, the offset is between 0 and 511, the
    length is at least 1 and offset plus length is at most 512. *)
Theorem drain_tick_run_inside_buffer (e : tick_env) (s : state)
    (offset len : Z) :
  snd (drain_tick e s) = Some (offset, len) ->
  0 <= offset < UART_BUFFER_SIZE /\ 1 <= len /\
  offset + len <= UART_BUFFER_SIZE.
Proof.
  destruct (drain_tick_cases e s) as [H | [(_ & _ & H) | (_ & Hspan & H)]];
    cbv zeta in H; rewrite H; cbn [snd]; try discriminate.
  intros Hrun.
  set (off := usb_tx_cnt s mod UART_BUFFER_SIZE) in *.
  set (run := Z.min (observed_span e s) (UART_BUFFER_SIZE - off)) in *.
  assert (Hoffset : offset = off) by congruence.
  assert (Hlen : len = run) by congruence.
  pose proof (Z.mod_pos_bound (usb_tx_cnt s) UART_BUFFER_SIZE
                ltac:(reflexivity)) as Hoff. fold off in Hoff.
  unfold run in Hlen. unfold UART_BUFFER_SIZE in *. lia.
Qed.

Lemma drain_tick_run_inside_buffer_witness :
  0 <= 508 < UART_BUFFER_SIZE /\ 1 <= 4 /\ 508 + 4 <= UART_BUFFER_SIZE.
Proof.
  apply (drain_tick_run_inside_buffer wrapping_env wrapping_state 508 4).
  reflexivity.
Defined.

(** X18. With no further byte arriving and a USB stack that takes all it
    is offered, two passes forward a backlog below [UART_BUFFER_SIZE]
    entirely: the first hands over the run up to the end of the buffer,
    the second, when the backlog wraps, the remainder from offset 0, and
    the span computed after them is 0. *)
Theorem two_passes_forward_the_backlog (e : tick_env) (s : state) :
  rx_busy e <> 0 ->
  0 < observed_span e s < UART_BUFFER_SIZE ->
  (forall offset n, USBD_CDC_ACM_WriteData e offset n = n) ->
  let offset := usb_tx_cnt s mod UART_BUFFER_SIZE in
  let first := Z.min (observed_span e s) (UART_BUFFER_SIZE - offset) in
  let s1 := fst (drain_tick e s) in
  let s2 := fst (drain_tick e s1) in
  snd (drain_tick e s) = Some (offset, first) /\
  snd (drain_tick e s1) =
    (if first <? observed_span e s
     then Some (0, observed_span e s - first) else None) /\
  observed_span e s2 = 0.
Proof.
  intros Hbusy Hspan Hall offset first s1 s2.
  pose proof (Z.mod_pos_bound (usb_tx_cnt s) UART_BUFFER_SIZE
                ltac:(reflexivity)) as Hoff. fold offset in Hoff.
  assert (Hfirst : 0 < first <= observed_span e s) by (unfold first; lia).
  pose proof (drain_tick_offer e s Hbusy Hspan) as H1. cbv zeta in H1.
  fold offset in H1. fold first in H1. rewrite Hall in H1.
  destruct (first >? 0) eqn:Hpos; [| lia].
  assert (Hs1 : s1 = set_usb_tx_cnt (int32 (usb_tx_cnt s + first)) s)
    by (unfold s1; now rewrite H1).
  assert (Hspan1 : observed_span e s1 = observed_span e s - first).
  { rewrite Hs1, observed_span_advance. apply int32_id.
    unfold in_int32, half_modulus, UART_BUFFER_SIZE in *. lia. }
  split; [now rewrite H1 |].
  destruct (Z.ltb_spec first (observed_span e s)) as [Hwrap | Hdone].
  - assert (Hfirst' : first = UART_BUFFER_SIZE - offset) by (unfold first; lia).
    assert (Hoff1 : usb_tx_cnt s1 mod UART_BUFFER_SIZE = 0).
    { rewrite Hs1. cbn [usb_tx_cnt set_usb_tx_cnt].
      unfold UART_BUFFER_SIZE in *. rewrite int32_mod_512, Hfirst'.
      unfold offset.
      rewrite (Z.div_mod (usb_tx_cnt s) 512) at 1 by lia.
      replace (512 * (usb_tx_cnt s / 512) + usb_tx_cnt s mod 512
               + (512 - usb_tx_cnt s mod 512))
        with ((usb_tx_cnt s / 512 + 1) * 512) by ring.
      apply Z.mod_mul. lia. }
    assert (Hspan1' : 0 < observed_span e s1 < UART_BUFFER_SIZE) by lia.
    pose proof (drain_tick_offer e s1 Hbusy Hspan1') as H2. cbv zeta in H2.
    rewrite Hoff1, Hall in H2.
    replace (Z.min (observed_span e s1) (UART_BUFFER_SIZE - 0))
      with (observed_span e s1) in H2 by lia.
    destruct (observed_span e s1 >? 0) eqn:Hpos1; [| lia].
    split; [rewrite H2, Hspan1; reflexivity |].
    unfold s2. rewrite H2. cbn [fst].
    rewrite observed_span_advance, Z.sub_diag. reflexivity.
  - assert (Hzero : observed_span e s1 = 0) by lia.
    assert (H2 : drain_tick e s1 = (s1, None))
      by (apply drain_tick_idle; [assumption | lia]).
    split; [now rewrite H2 |].
    unfold s2. now rewrite H2.
Qed.

Lemma two_passes_forward_the_backlog_witness :
  snd (drain_tick wrapping_env wrapping_state) = Some (508, 4) /\
  snd (drain_tick wrapping_env (fst (drain_tick wrapping_env wrapping_state)))
    = Some (0, 20) /\
  observed_span wrapping_env
    (fst (drain_tick wrapping_env
            (fst (drain_tick wrapping_env wrapping_state)))) = 0.
Proof.
  apply (two_passes_forward_the_backlog wrapping_env wrapping_state).
  - vm_compute. discriminate.
  - vm_compute. split; reflexivity.
  - reflexivity.
Defined.

(** ** The UART completion callback *)

(** X19. On a send-complete event (receive-complete not set), the callback
    passes on what the USB stack holds for the UART: with nothing pending
    the state is unchanged and the chain of transmissions stops; otherwise
    the first 512 pending bytes at most are copied to the start of
    [uart_tx_buf], the rest of which is kept, and exactly those bytes are
    handed to [Send]. *)
Theorem send_complete_forwards_pending_bytes (pending : list Z) (event : Z)
    (s : state) :
  Z.land event ARM_USART_EVENT_SEND_COMPLETE <> 0 ->
  Z.land event ARM_USART_EVENT_RECEIVE_COMPLETE = 0 ->
  let got := firstn (Z.to_nat UART_BUFFER_SIZE) pending in
  UART_Callback pending event s =
    match got with
    | [] => s
    | _ :: _ =>
        ptrUART (Send got)
          (set_uart_tx_buf
             (got ++ skipn (List.length got) (uart_tx_buf s)) s)
    end.
Proof.
  intros Hsend Hrecv got. unfold UART_Callback.
  apply Z.eqb_neq in Hsend. rewrite Hsend, Hrecv. cbn [Z.eqb].
  unfold USBD_CDC_ACM_ReadData. fold got.
  assert (Hle : (List.length got <= 512)%nat) by apply firstn_le_length.
  destruct got as [| x got'] eqn:Hgot.
  - cbn. now destruct s.
  - rewrite <- Hgot in *.
    destruct (Z.of_nat (List.length got) >? 0) eqn:Hcnt.
    + do 2 f_equal. unfold uint32, modulus.
      rewrite Z.mod_small by lia.
      rewrite Nat2Z.id, firstn_app, firstn_all, Nat.sub_diag.
      cbn [firstn]. apply app_nil_r.
    + rewrite Hgot in Hcnt. cbn [List.length] in Hcnt.
      rewrite Z.gtb_ltb in Hcnt. apply Z.ltb_ge in Hcnt. lia.
Qed.

Lemma send_complete_forwards_pending_bytes_witness :
  UART_Callback [65; 66; 67] ARM_USART_EVENT_SEND_COMPLETE initial_state =
    ptrUART (Send [65; 66; 67])
      (set_uart_tx_buf ([65; 66; 67] ++ repeat 0 509) initial_state).
Proof.
  apply (send_complete_forwards_pending_bytes [65; 66; 67]
           ARM_USART_EVENT_SEND_COMPLETE initial_state).
  - vm_compute. discriminate.
  - reflexivity.
Defined.

(** X20. [uart_rx_cnt] advances exactly when a reception is re-armed: for
    an event with the receive-complete bit, whatever other bits it has and
    whatever is pending, the callback adds [UART_BUFFER_SIZE] to
    [uart_rx_cnt] (as an [int32_t]) and its last driver call arms a
    reception of [UART_BUFFER_SIZE] bytes; for an event without the bit,
    [uart_rx_cnt] is kept and no reception is armed. In both cases
    [usb_tx_cnt] is kept. *)
Theorem receive_complete_counts_and_rearms (pending : list Z) (event : Z)
    (s : state) :
  let s' := UART_Callback pending event s in
  let sent :=
    UART_Callback pending
      (Z.land event ARM_USART_EVENT_SEND_COMPLETE) s in
  usb_tx_cnt s' = usb_tx_cnt s /\
  if Z.land event ARM_USART_EVENT_RECEIVE_COMPLETE =? 0
  then uart_rx_cnt s' = uart_rx_cnt s /\ s' = sent
  else uart_rx_cnt s' = int32 (uart_rx_cnt s + UART_BUFFER_SIZE) /\
       usart s' = usart sent ++ [Receive UART_BUFFER_SIZE].
Proof.
  cbv zeta. unfold UART_Callback.
  assert (Hs : Z.land (Z.land event ARM_USART_EVENT_SEND_COMPLETE)
                 ARM_USART_EVENT_SEND_COMPLETE
               = Z.land event ARM_USART_EVENT_SEND_COMPLETE)
    by (rewrite <- Z.land_assoc; reflexivity).
  assert (Hr : Z.land (Z.land event ARM_USART_EVENT_SEND_COMPLETE)
                 ARM_USART_EVENT_RECEIVE_COMPLETE = 0)
    by (rewrite <- Z.land_assoc; cbn; apply Z.land_0_r).
  rewrite Hs, Hr. cbn [Z.eqb].
  destruct (USBD_CDC_ACM_ReadData pending (uart_tx_buf s) UART_BUFFER_SIZE)
    as [cnt buf].
  destruct (Z.land event ARM_USART_EVENT_SEND_COMPLETE =? 0),
           (Z.land event ARM_USART_EVENT_RECEIVE_COMPLETE =? 0);
    try destruct (cnt >? 0); cbn; auto.
Qed.

(** ** Line coding *)

Section Supported.

Ltac small_cases x :=
  destruct x as [| p | p]; try discriminate;
  do 4 (try destruct p as [p | p |]; try discriminate);
  intros _; lia.

Lemma stop_bits_supported x y : stop_bits_of x = Some y -> 0 <= x <= 2.
Proof. unfold stop_bits_of. small_cases x. Qed.

Lemma parity_supported x y : parity_of x = Some y -> 0 <= x <= 2.
Proof. unfold parity_of. small_cases x. Qed.

Lemma data_bits_supported x y : data_bits_of x = Some y -> 5 <= x <= 8.
Proof. unfold data_bits_of. small_cases x. Qed.

End Supported.

(** X21. [USBD_CDC0_ACM_SetLineCoding] returns true exactly when
    [bCharFormat] is 0, 1 or 2, [bParityType] is 0, 1 or 2, [bDataBits] is
    5, 6, 7 or 8, and the driver accepts the mode ([ARM_DRIVER_OK]); the
    baud rate is not examined. *)
Theorem SetLineCoding_accepts_iff (status : Z) (line_coding : CDC_LINE_CODING)
    (s : state) :
  fst (USBD_CDC0_ACM_SetLineCoding status line_coding s) = true <->
  0 <= bCharFormat line_coding <= 2 /\
  0 <= bParityType line_coding <= 2 /\
  5 <= bDataBits line_coding <= 8 /\
  status = ARM_DRIVER_OK.
Proof.
  rewrite SetLineCoding_result.
  destruct line_coding as [rate fmt par bits].
  cbn [bCharFormat bParityType bDataBits].
  split.
  - destruct (stop_bits_of fmt) eqn:Hfmt; [| discriminate].
    destruct (parity_of par) eqn:Hpar; [| discriminate].
    destruct (data_bits_of bits) eqn:Hbits; [| discriminate].
    intros H. apply Z.eqb_eq in H.
    apply stop_bits_supported in Hfmt. apply parity_supported in Hpar.
    apply data_bits_supported in Hbits. auto.
  - intros (Hfmt & Hpar & Hbits & ->).
    assert (fmt = 0 \/ fmt = 1 \/ fmt = 2) as [-> | [-> | ->]] by lia;
      (assert (par = 0 \/ par = 1 \/ par = 2) as [-> | [-> | ->]] by lia);
      (assert (bits = 5 \/ bits = 6 \/ bits = 7 \/ bits = 8)
         as [-> | [-> | [-> | ->]]] by lia);
      reflexivity.
Qed.

(** X22. After a request that [USBD_CDC0_ACM_SetLineCoding] accepts,
    [USBD_CDC0_ACM_GetLineCoding] returns the requested record; both
    counters are 0; and the driver calls of the request end with the
    transmitter and the receiver enabled and a reception of
    [UART_BUFFER_SIZE] bytes armed. *)
Theorem accepted_line_coding_is_read_back (status : Z)
    (line_coding : CDC_LINE_CODING) (s : state) :
  fst (USBD_CDC0_ACM_SetLineCoding status line_coding s) = true ->
  let s' := snd (USBD_CDC0_ACM_SetLineCoding status line_coding s) in
  USBD_CDC0_ACM_GetLineCoding s' = (true, line_coding) /\
  uart_rx_cnt s' = 0 /\ usb_tx_cnt s' = 0 /\
  exists calls,
    usart s' =
      usart s ++ calls ++
      [Control ARM_USART_CONTROL_TX 1; Control ARM_USART_CONTROL_RX 1;
       Receive UART_BUFFER_SIZE].
Proof.
  unfold USBD_CDC0_ACM_SetLineCoding, USBD_CDC0_ACM_GetLineCoding.
  destruct (stop_bits_of _) as [stop |]; [| discriminate].
  destruct (parity_of _) as [par |]; [| discriminate].
  destruct (data_bits_of _) as [bits |]; [| discriminate].
  destruct (status =? ARM_DRIVER_OK); [| discriminate].
  intros _. cbn. repeat split.
  eexists [_; _; _; _; _]. rewrite <- !app_assoc. cbn [app]. reflexivity.
Qed.

Lemma accepted_line_coding_is_read_back_witness :
  USBD_CDC0_ACM_GetLineCoding
    (snd (USBD_CDC0_ACM_SetLineCoding ARM_DRIVER_OK
            (mkLineCoding 115200 0 0 8) initial_state))
    = (true, mkLineCoding 115200 0 0 8).
Proof.
  destruct (accepted_line_coding_is_read_back ARM_DRIVER_OK
              (mkLineCoding 115200 0 0 8) initial_state) as (H & _).
  - vm_compute. reflexivity.
  - exact H.
Defined.

(** X23. A request that [USBD_CDC0_ACM_SetLineCoding] rejects leaves the
    UART stopped: the call has aborted any transfer and disabled the
    transmitter and the receiver, issues at most the mode-setting call
    after that, and neither enables them again nor arms a reception. *)
Theorem rejected_line_coding_leaves_uart_disabled (status : Z)
    (line_coding : CDC_LINE_CODING) (s : state) :
  fst (USBD_CDC0_ACM_SetLineCoding status line_coding s) = false ->
  let s' := snd (USBD_CDC0_ACM_SetLineCoding status line_coding s) in
  let stopped :=
    usart s ++
    [Control ARM_USART_ABORT_SEND 0; Control ARM_USART_ABORT_RECEIVE 0;
     Control ARM_USART_CONTROL_TX 0; Control ARM_USART_CONTROL_RX 0] in
  usart s' = stopped \/
  exists mode, usart s' = stopped ++ [Control mode (dwDTERate line_coding)].
Proof.
  unfold USBD_CDC0_ACM_SetLineCoding.
  destruct (stop_bits_of _) as [stop |];
    [| intros _; left; cbn; now rewrite <- !app_assoc].
  destruct (parity_of _) as [par |];
    [| intros _; left; cbn; now rewrite <- !app_assoc].
  destruct (data_bits_of _) as [bits |];
    [| intros _; left; cbn; now rewrite <- !app_assoc].
  destruct (status =? ARM_DRIVER_OK); [discriminate |].
  intros _. right. eexists. cbn. rewrite <- !app_assoc. reflexivity.
Qed.

Lemma rejected_line_coding_leaves_uart_disabled_witness :
  usart (snd (USBD_CDC0_ACM_SetLineCoding ARM_DRIVER_OK nine_bits
                initial_state)) =
    [Control ARM_USART_ABORT_SEND 0; Control ARM_USART_ABORT_RECEIVE 0;
     Control ARM_USART_CONTROL_TX 0; Control ARM_USART_CONTROL_RX 0].
Proof.
  destruct (rejected_line_coding_leaves_uart_disabled ARM_DRIVER_OK nine_bits
              initial_state) as [H | [mode H]].
  - vm_compute. reflexivity.
  - exact H.
  - vm_compute in H. discriminate H.
Defined.

(** ** Repeated commands and the formatted reply *)

Section Formatted.


End Formatted.



